(** * Running submitted code in a container: the core and its HTTP shell

    A shallow embedding of [src/runner/docker_runner.py] and [src/app.py].

    - Python [str] values are sequences of Unicode code points, [list N].
    - The built-in string methods the code calls ([strip], [splitlines],
      [in], [+], f-strings) are written out on that representation.
    - [str.lower] and [textwrap.dedent] depend on tables and regular
      expressions of the interpreter; they are parameters of the
      development (see [Section Runner]).
    - The operating system (PATH lookup, temporary directories, files, the
      [docker] subprocess) is an explicit world state threaded through a
      state-and-exception monad, with the outcomes the code cannot control
      supplied by an environment record. *)

From Stdlib Require Import ZArith NArith Lia Bool Ascii String DecimalString.
From Stdlib Require SpecFloat.
From stdpp Require Import gmap strings list fin_maps.

Set Warnings "-register-all".
Local Open Scope N_scope.

(** ** Python strings *)

Abbreviation pystr := (list N).

(** A string literal of the source, as code points (ASCII literals only). *)
Fixpoint py (s : string) : pystr :=
  match s with
  | EmptyString => []
  | String a s' => N_of_ascii a :: py s'
  end.

Module Str.

(** [str.isspace] on one code point, the set used by [str.strip()]. *)
Definition is_space (c : N) : bool :=
  ((0x09 <=? c) && (c <=? 0x0D))
  || ((0x1C <=? c) && (c <=? 0x1F))
  || (c =? 0x20) || (c =? 0x85) || (c =? 0xA0) || (c =? 0x1680)
  || ((0x2000 <=? c) && (c <=? 0x200A))
  || (c =? 0x2028) || (c =? 0x2029) || (c =? 0x202F) || (c =? 0x205F)
  || (c =? 0x3000).

(** Line boundaries recognised by [str.splitlines()]. *)
Definition is_linebreak (c : N) : bool :=
  ((0x0A <=? c) && (c <=? 0x0D))
  || ((0x1C <=? c) && (c <=? 0x1E))
  || (c =? 0x85) || (c =? 0x2028) || (c =? 0x2029).

Definition CR : N := 0x0D.
Definition LF : N := 0x0A.

Fixpoint drop_space (s : pystr) : pystr :=
  match s with
  | [] => []
  | c :: s' => if is_space c then drop_space s' else s
  end.

(** [s.lstrip()], [s.rstrip()], [s.strip()] *)
Definition lstrip (s : pystr) : pystr := drop_space s.
Definition rstrip (s : pystr) : pystr := rev (drop_space (rev s)).
Definition strip (s : pystr) : pystr := rstrip (lstrip s).

(** [s.startswith(p)] *)
Fixpoint startswith (p s : pystr) : bool :=
  match p, s with
  | [], _ => true
  | _ :: _, [] => false
  | a :: p', b :: s' => (a =? b) && startswith p' s'
  end.

(** [sub in s] *)
Fixpoint contains (sub s : pystr) : bool :=
  startswith sub s
  || match s with
     | [] => false
     | _ :: s' => contains sub s'
     end.

(** [s.splitlines()]: [cur] is the current line, reversed.  A line
    terminator closes the current line; ["\r\n"] counts as one
    terminator; a trailing terminator opens no further line. *)
Fixpoint splitlines_from (cur s : pystr) : list pystr :=
  match s with
  | [] => match cur with [] => [] | _ :: _ => [rev cur] end
  | c :: rest =>
      if is_linebreak c then
        rev cur ::
          (if c =? CR then
             match rest with
             | d :: rest' =>
                 if d =? LF then splitlines_from [] rest'
                 else splitlines_from [] rest
             | [] => splitlines_from [] rest
             end
           else splitlines_from [] rest)
      else splitlines_from (c :: cur) rest
  end.

Definition splitlines (s : pystr) : list pystr := splitlines_from [] s.

(** [str(n)] for an [int]. *)
Definition of_int (z : Z) : pystr := py (NilZero.string_of_int (Z.to_int z)).

(** [len(s)] *)
Definition len (s : pystr) : Z := Z.of_nat (length s).

End Str.

(** ** Exceptions and the effect monad *)

Inductive exc_class :=
| TimeoutExpired       (* subprocess.TimeoutExpired *)
| OSError
| UnicodeEncodeError
| TypeError
| IndexError
| KeyError
| OtherException       (* any other subclass of Exception *)
| KeyboardInterrupt    (* BaseException, not a subclass of Exception *)
| SystemExit.

(** [isinstance(e, Exception)] *)
Definition is_Exception (c : exc_class) : bool :=
  match c with
  | KeyboardInterrupt | SystemExit => false
  | _ => true
  end.

(** An exception object: its class and [str(e)]. *)
Record exc := Exc { exc_cls : exc_class; exc_str : pystr }.

Inductive outcome (A : Type) :=
| Returned (a : A)
| Raised (e : exc).
Arguments Returned {A} a.
Arguments Raised {A} e.

(** What the host observes of one invocation. *)
Inductive event :=
| EvMkdtemp (d : pystr)
| EvOpen (p : pystr)
| EvWrite (p content : pystr)
| EvRun (cmd : list pystr)
| EvRmtree (d : pystr).

(** The host: directories, files with their text, and the effects so far
    (most recent first). *)
Record World := mkWorld {
  dirs : gset pystr;
  files : gmap pystr pystr;
  trace : list event
}.

(** [subprocess.CompletedProcess] *)
Record CompletedProcess := mkProc {
  stdout : option pystr;
  stderr : option pystr;
  returncode : Z
}.

(** Everything the code consults but does not decide. *)
Record Env := mkEnv {
  str_lower : pystr -> pystr;                 (* str.lower *)
  textwrap_dedent : pystr -> pystr;           (* textwrap.dedent *)
  shutil_which : pystr -> option pystr;       (* shutil.which *)
  gettempdir : pystr;                         (* tempfile.gettempdir() *)
  mkdtemp_name : exc + pystr;                 (* random name, or the OS error *)
  open_error : option exc;                    (* OS error of open(..., "w") *)
  docker_outcome : list pystr -> outcome CompletedProcess
                                              (* what subprocess.run does *)
}.

Definition M (A : Type) : Type := World -> outcome A * World.

Definition ret {A} (a : A) : M A := fun w => (Returned a, w).
Definition raise {A} (e : exc) : M A := fun w => (Raised e, w).
Definition bind {A B} (m : M A) (k : A -> M B) : M B :=
  fun w => match m w with
           | (Returned a, w') => k a w'
           | (Raised e, w') => (Raised e, w')
           end.
(** [try: m  except ...: h e] where [h] decides which classes it handles *)
Definition try_except {A} (m : M A) (h : exc -> M A) : M A :=
  fun w => match m w with
           | (Returned a, w') => (Returned a, w')
           | (Raised e, w') => h e w'
           end.
(** [m] followed by [fin] on every exit of [m] *)
Definition finally {A} (m : M A) (fin : M unit) : M A :=
  fun w => match m w with
           | (r, w') => match fin w' with
                        | (Returned _, w'') => (r, w'')
                        | (Raised e, w'') => (Raised e, w'')
                        end
           end.

#[export] Instance M_ret : MRet M := @ret.
#[export] Instance M_bind : MBind M := fun A B k m => bind m k.

(** ** Host primitives *)

Definition SEP : N := 0x2F.

(** [os.path.join(a, b)] on POSIX *)
Definition path_join (a b : pystr) : pystr :=
  if Str.startswith [SEP] b then b
  else match a with
       | [] => a ++ b
       | _ :: _ => if Str.startswith [SEP] (rev a) then a ++ b
                   else a ++ SEP :: b
       end.

(** Is path [p] the directory [d] or something below it. *)
Definition inside (d p : pystr) : bool :=
  bool_decide (p = d) || Str.startswith (path_join d []) p.

(** UTF-8 refuses the surrogate code points. *)
Definition is_surrogate (c : N) : bool := (0xD800 <=? c) && (c <=? 0xDFFF).

Definition hex_digit (n : N) : N :=
  if n <? 10 then 0x30 + n else 0x61 + (n - 10).

(** ['\\u%04x'] of a code point below [0x10000] *)
Definition hex4 (c : N) : pystr :=
  [hex_digit (c / 4096 mod 16); hex_digit (c / 256 mod 16);
   hex_digit (c / 16 mod 16); hex_digit (c mod 16)].

(** Length of the run of surrogates at the head of [s]. *)
Fixpoint surrogate_run (s : pystr) : nat :=
  match s with
  | c :: s' => if is_surrogate c then S (surrogate_run s') else O
  | [] => O
  end.

(** The strict UTF-8 encoder on [s], [pos] code points into the text: the
    first run of surrogates is reported as a [UnicodeEncodeError]. *)
Fixpoint utf8_check (pos : nat) (s : pystr) : option exc :=
  match s with
  | [] => None
  | c :: s' =>
      if is_surrogate c then
        let run := surrogate_run s' in
        Some (Exc UnicodeEncodeError
                (py "'utf-8' codec can't encode character" ++
                 match run with
                 | O => py " '\u" ++ hex4 c ++ py "' in position " ++
                          Str.of_int (Z.of_nat pos)
                 | S _ => py "s in position " ++ Str.of_int (Z.of_nat pos) ++
                          py "-" ++ Str.of_int (Z.of_nat (pos + run))
                 end ++ py ": surrogates not allowed"))
      else utf8_check (S pos) s'
  end.

Section Host.
Context (env : Env).

(** The directory [tempfile.mkdtemp] makes for the random [name]. *)
Definition tmpdir_of (name : pystr) : pystr :=
  path_join (gettempdir env) (py "tmp" ++ name).

(** [tempfile.TemporaryDirectory().__enter__()] *)
Definition TemporaryDirectory_enter : M pystr :=
  match mkdtemp_name env with
  | inl e => raise e
  | inr name =>
      let d := tmpdir_of name in
      fun w => (Returned d, mkWorld ({[d]} ∪ dirs w) (files w)
                                    (EvMkdtemp d :: trace w))
  end.

(** [TemporaryDirectory.cleanup()]: the directory and all below it go. *)
Definition TemporaryDirectory_exit (d : pystr) : M unit :=
  fun w => (Returned tt,
            mkWorld (filter (fun p => inside d p = false) (dirs w))
                    (filter (fun kv => inside d kv.1 = false) (files w))
                    (EvRmtree d :: trace w)).

(** [with tempfile.TemporaryDirectory() as tmpdir: body] *)
Definition with_TemporaryDirectory {A} (body : pystr -> M A) : M A :=
  tmpdir ← TemporaryDirectory_enter;
  finally (body tmpdir) (TemporaryDirectory_exit tmpdir).

(** [with open(path, "w", encoding="utf-8") as f: f.write(text)] *)
Definition write_text (path text : pystr) : M unit :=
  match open_error env with
  | Some e => raise e
  | None =>
      (fun w => (Returned tt, mkWorld (dirs w) (<[path := []]> (files w))
                                      (EvOpen path :: trace w))) ;;
      match utf8_check 0 text with
      | Some e => raise e
      | None =>
          fun w => (Returned tt, mkWorld (dirs w) (<[path := text]> (files w))
                                         (EvWrite path text :: trace w))
      end
  end.

(** [subprocess.run(cmd, capture_output=True, text=True, timeout=...)] *)
Definition subprocess_run (cmd : list pystr) : M CompletedProcess :=
  fun w => (docker_outcome env cmd,
            mkWorld (dirs w) (files w) (EvRun cmd :: trace w)).

End Host.

(** ** The execution core: [src/runner/docker_runner.py] *)

Definition IMAGE_NAME : pystr := py "python:3.11-slim".
Definition EXEC_TIMEOUT_SECONDS : Z := 10.
Definition MEMORY_LIMIT : pystr := py "128m".
Definition NETWORK_MODE : pystr := py "none".

(** [x or ''] for an optional text: [None] and the empty text give the
    empty text *)
Definition or_empty (x : option pystr) : pystr :=
  match x with
  | Some (c :: s) => c :: s
  | Some [] | None => []
  end.

(** The [docker_cmd] list of [run_code_in_docker], for the staging
    directory [tmpdir]. *)
Definition docker_cmd (tmpdir : pystr) : list pystr :=
  [py "docker"; py "run"; py "--rm";
   py "--memory=" ++ MEMORY_LIMIT;
   py "--network"; NETWORK_MODE;
   py "-v"; tmpdir ++ py ":/app:ro";
   IMAGE_NAME;
   py "python"; py "/app/script.py"].

Section Core.
Context (env : Env).

Definition _docker_available : M bool :=
  mret (match shutil_which env (py "docker") with
        | Some _ => true
        | None => false
        end).

Definition run_code_in_docker (code : pystr) : M (pystr * Z) :=
  let code := textwrap_dedent env code in
  available ← _docker_available;
  if negb available then
    mret (py "Docker is not installed or not available in PATH.", (-1)%Z)
  else
    with_TemporaryDirectory env (fun tmpdir =>
      let script_path := path_join tmpdir (py "script.py") in
      write_text env script_path code ;;
      let docker_cmd := docker_cmd tmpdir in
      r ← try_except
            (proc ← subprocess_run env docker_cmd; mret (inr proc))
            (fun e =>
               match exc_cls e with
               | TimeoutExpired =>
                   mret (inl (py "Execution timed out after " ++
                              Str.of_int EXEC_TIMEOUT_SECONDS ++
                              py " seconds.", (-2)%Z))
               | c =>
                   if is_Exception c then
                     mret (inl (py "Internal error: " ++ exc_str e, (-1)%Z))
                   else raise e
               end);
      match r with
      | inl early => mret early
      | inr proc =>
          let stdout := or_empty (stdout proc) in
          let stderr := or_empty (stderr proc) in
          let combined := Str.strip (stdout ++ [Str.LF] ++ stderr) in
          if negb (returncode proc =? 0)%Z then
            let low := str_lower env combined in
            if Str.contains (py "killed") low
               || Str.contains (py "out of memory") low then
              mret (py "Execution failed: container was killed due to excessive memory usage.",
                    returncode proc)
            else mret (combined, returncode proc)
          else mret (Str.strip stdout, returncode proc)
      end).

End Core.

(** ** The HTTP shell: [src/app.py] *)

Definition MAX_CODE_SIZE : Z := 5000.

(** [l[-1]] *)
Definition index_last {A} (l : list A) : outcome A :=
  match last l with
  | Some x => Returned x
  | None => Raised (Exc IndexError (py "list index out of range"))
  end.

Definition clean_message (msg : pystr) : outcome pystr :=
  if Str.contains (py "Traceback") msg then index_last (Str.splitlines msg)
  else Returned msg.

(** A parsed JSON value, as [request.get_json(silent=True)] hands it over;
    [JNull] is Python's [None], also returned for an unparsable body. *)
Inductive json :=
| JNull
| JBool (b : bool)
| JInt (z : Z)
| JFloat (f : SpecFloat.spec_float)
| JStr (s : pystr)
| JList (l : list json)
| JDict (d : gmap pystr json).

(** [type(v).__name__] *)
Definition type_name (v : json) : pystr :=
  match v with
  | JNull => py "NoneType"
  | JBool _ => py "bool"
  | JInt _ => py "int"
  | JFloat _ => py "float"
  | JStr _ => py "str"
  | JList _ => py "list"
  | JDict _ => py "dict"
  end.

(** [bool(v)] *)
Definition truthy (v : json) : bool :=
  match v with
  | JNull => false
  | JBool b => b
  | JInt z => negb (z =? 0)%Z
  | JFloat f => match f with SpecFloat.S754_zero _ => false | _ => true end
  | JStr s => match s with [] => false | _ :: _ => true end
  | JList l => match l with [] => false | _ :: _ => true end
  | JDict d => negb (Nat.eqb (size d) 0)
  end.

(** ["code" in data]; the error texts of the interpreter are those of
    CPython 3.11. *)
Definition contains_code (data : json) : outcome bool :=
  match data with
  | JDict d => Returned (match d !! py "code" with Some _ => true | None => false end)
  | JList l =>
      Returned (existsb (fun v => match v with
                                  | JStr s => bool_decide (s = py "code")
                                  | _ => false
                                  end) l)
  | JStr s => Returned (Str.contains (py "code") s)
  | _ => Raised (Exc TypeError (py "argument of type '" ++ type_name data ++
                                py "' is not iterable"))
  end.

(** [data["code"]] *)
Definition getitem_code (data : json) : outcome json :=
  match data with
  | JDict d => match d !! py "code" with
               | Some v => Returned v
               | None => Raised (Exc KeyError (py "'code'"))
               end
  | JList _ =>
      Raised (Exc TypeError (py "list indices must be integers or slices, not str"))
  | JStr _ =>
      Raised (Exc TypeError (py "string indices must be integers, not 'str'"))
  | _ => Raised (Exc TypeError (py "'" ++ type_name data ++
                                py "' object is not subscriptable"))
  end.

(** [len(v)] *)
Definition py_len (v : json) : outcome Z :=
  match v with
  | JStr s => Returned (Str.len s)
  | JList l => Returned (Z.of_nat (length l))
  | JDict d => Returned (Z.of_nat (size d))
  | _ => Raised (Exc TypeError (py "object of type '" ++ type_name v ++
                                py "' has no len()"))
  end.

(** A Flask response: the [jsonify] body and the status code. *)
Record Response := mkResponse { body : gmap pystr json; status : Z }.

Definition lift {A} (o : outcome A) : M A := fun w => (o, w).

Section Shell.
Context (env : Env).

(** The call [run_code_in_docker(code)] on an arbitrary value:
    [textwrap.dedent] rejects what is not a [str]. *)
Definition call_run_code_in_docker (code : json) : M (pystr * Z) :=
  match code with
  | JStr s => run_code_in_docker env s
  | _ => raise (Exc TypeError (py "expected string or bytes-like object, got '" ++
                               type_name code ++ py "'"))
  end.

Definition run_code (data : json) : M Response :=
  missing ← (if negb (truthy data) then mret true
              else (present ← lift (contains_code data); mret (negb present)));
  if missing : bool then
    mret (mkResponse {[ py "error" := JStr (py "Missing 'code' field") ]} 400)
  else
    code ← lift (getitem_code data);
    n ← lift (py_len code);
    if (n >? MAX_CODE_SIZE)%Z then
      mret (mkResponse
              {[ py "error" := JStr (py "Code too long (max " ++
                                     Str.of_int MAX_CODE_SIZE ++
                                     py " characters)") ]} 400)
    else
      r ← call_run_code_in_docker code;
      let '(output, exit_code) := r in
      output ← lift (clean_message output);
      mret (mkResponse (<[ py "output" := JStr output ]>
                          {[ py "exit_code" := JInt exit_code ]}) 200).

End Shell.

(** ** A concrete host, for evaluating the code on examples *)

(** ASCII letters to lower case; [str.lower] on ASCII text. *)
Definition ascii_lower (s : pystr) : pystr :=
  map (fun c => if (0x41 <=? c) && (c <=? 0x5A) then c + 32 else c) s.

(** A host with [docker] on PATH whose container run ends as [run]; the
    submitted text is taken to carry no common indentation. *)
Definition host (docker : bool) (run : outcome CompletedProcess) : Env :=
  {| str_lower := ascii_lower;
     textwrap_dedent := fun s => s;
     shutil_which := fun name =>
       if docker && bool_decide (name = py "docker")
       then Some (py "/usr/bin/docker") else None;
     gettempdir := py "/tmp";
     mkdtemp_name := inr (py "k3x9qz_a");
     open_error := None;
     docker_outcome := fun _ => run |}.

Definition world0 : World := mkWorld ∅ ∅ [].

(** ** Specification vocabulary *)

(** No line terminator occurs in [s]. *)
Definition nobreak (s : pystr) : Prop :=
  Forall (fun c => Str.is_linebreak c = false) s.

(** Only white space occurs in [s]. *)
Definition blank (s : pystr) : Prop :=
  Forall (fun c => Str.is_space c = true) s.

(** [post] is nothing or exactly one line terminator. *)
Definition terminator (post : pystr) : Prop :=
  post = [] \/ (exists c, post = [c] /\ Str.is_linebreak c = true)
  \/ post = [Str.CR; Str.LF].

(** [L] is the last line of the text [m]: it runs from the start of [m] or
    from just behind a terminator up to the end of [m], an optional final
    terminator apart, and is empty only when a terminator follows it. *)
Definition is_last_line (m L : pystr) : Prop :=
  exists pre post,
    m = pre ++ L ++ post /\ nobreak L /\ terminator post
    /\ (pre = [] \/ exists pre' c, pre = pre' ++ [c] /\ Str.is_linebreak c = true)
    /\ (L = [] -> post <> []).

(** Values [len] rejects. *)
Definition unsized (v : json) : bool :=
  match v with
  | JNull | JBool _ | JInt _ | JFloat _ => true
  | JStr _ | JList _ | JDict _ => false
  end.

(** The text a division by zero in the guest leaves on standard error. *)
Definition zero_division_trace : pystr :=
  py "Traceback (most recent call last):" ++ [Str.LF] ++
  py "  File '/app/script.py', line 1, in <module>" ++ [Str.LF] ++
  py "ZeroDivisionError: division by zero".

(** A body that is not an object. *)
Definition non_object (data : json) : Prop :=
  match data with
  | JDict _ => False
  | _ => True
  end.

(** The three answers of [run_code]. *)
Definition missing_response : Response :=
  mkResponse {[ py "error" := JStr (py "Missing 'code' field") ]} 400.

Definition too_long_response : Response :=
  mkResponse {[ py "error" := JStr (py "Code too long (max 5000 characters)") ]}
             400.

Definition ok_response (output : pystr) (exit_code : Z) : Response :=
  mkResponse (<[ py "output" := JStr output ]>
                {[ py "exit_code" := JInt exit_code ]}) 200.

(** A host whose temporary directory cannot be made. *)
Definition host_disk_full : Env :=
  {| str_lower := ascii_lower;
     textwrap_dedent := fun s => s;
     shutil_which := fun _ => Some (py "/usr/bin/docker");
     gettempdir := py "/tmp";
     mkdtemp_name := inl (Exc OSError (py "[Errno 28] No space left on device"));
     open_error := None;
     docker_outcome := fun _ => Raised (Exc OSError []) |}.

(** What the body of the [with] block does to the host: it stages the
    script and runs the container; it neither makes nor removes the
    staging directory. *)
Definition body_event (ev : event) : Prop :=
  match ev with
  | EvOpen _ | EvWrite _ _ | EvRun _ => True
  | EvMkdtemp _ | EvRmtree _ => False
  end.

(** ** Symbolic execution of the core *)

(** Expose the monadic steps of [run_code_in_docker]. *)
Ltac core_unfold :=
  unfold run_code_in_docker, _docker_available, with_TemporaryDirectory,
    TemporaryDirectory_enter, TemporaryDirectory_exit, write_text,
    subprocess_run, try_except, finally;
  unfold mbind, M_bind, bind, mret, M_ret, ret, raise;
  cbv beta.

(** Run the core up to the container launch, given that [docker] was
    found, the directory made, the file opened and the text encoded. *)
Ltac core_run Hwhich Hdir Hopen Henc :=
  core_unfold; rewrite Hwhich; cbv beta iota; simpl negb;
  cbv beta iota; rewrite Hdir, Hopen; cbv beta iota;
  rewrite Henc; cbv beta iota.

(** Expose the monadic steps of [run_code]. *)
Ltac shell_unfold :=
  unfold run_code, lift;
  unfold mbind, M_bind, bind, mret, M_ret, ret, raise;
  cbv beta.

(** * Facts about the string methods *)

Module StrFacts.
Import Str.

Lemma drop_space_decompose (s : pystr) :
  exists l, s = l ++ drop_space s /\ blank l.
Proof.
  induction s as [|c s IH]; simpl.
  - exists []. split; [reflexivity | constructor].
  - destruct (is_space c) eqn:E.
    + destruct IH as (l & Hl & Hb). exists (c :: l). split.
      * simpl. f_equal. exact Hl.
      * constructor; assumption.
    + exists []. split; [reflexivity | constructor].
Qed.

Lemma drop_space_head (s : pystr) c t :
  drop_space s = c :: t -> is_space c = false.
Proof.
  induction s as [|a s IH]; simpl; [discriminate |].
  destruct (is_space a) eqn:E; [exact IH |].
  intros [= -> _]. exact E.
Qed.

Lemma drop_space_id (s : pystr) :
  match s with c :: _ => is_space c = false | [] => True end ->
  drop_space s = s.
Proof. destruct s as [|c s]; simpl; [reflexivity |]. intros ->. reflexivity. Qed.

Lemma drop_space_blank (s : pystr) : blank s -> drop_space s = [].
Proof.
  induction 1 as [|c s Hc _ IH]; simpl; [reflexivity |]. rewrite Hc. exact IH.
Qed.

(** [strip] removes a blank prefix and a blank suffix, and nothing else. *)
Lemma strip_decompose (s : pystr) :
  exists l r, s = l ++ strip s ++ r /\ blank l /\ blank r.
Proof.
  unfold strip, rstrip, lstrip.
  destruct (drop_space_decompose s) as (l & Hl & Bl).
  destruct (drop_space_decompose (rev (drop_space s))) as (r & Hr & Br).
  exists l, (rev r). repeat split.
  - rewrite <- rev_app_distr, <- Hr, rev_involutive. exact Hl.
  - exact Bl.
  - apply Forall_rev. exact Br.
Qed.

Lemma strip_first (s : pystr) c t : strip s = c :: t -> is_space c = false.
Proof.
  intros H. unfold strip, rstrip, lstrip in H.
  destruct (drop_space_decompose (rev (drop_space s))) as (r & Hr & _).
  apply (f_equal (@rev N)) in Hr. rewrite rev_involutive, rev_app_distr, H in Hr.
  simpl in Hr. exact (drop_space_head s c _ Hr).
Qed.

Lemma strip_last (s : pystr) c : last (strip s) = Some c -> is_space c = false.
Proof.
  unfold strip, rstrip. intros H.
  destruct (drop_space (rev (lstrip s))) as [|a t] eqn:E; [discriminate |].
  simpl in H. rewrite last_snoc in H. injection H as ->.
  exact (drop_space_head _ _ _ E).
Qed.

Lemma strip_blank (s : pystr) : blank s -> strip s = [].
Proof.
  intros B. unfold strip, rstrip, lstrip. rewrite (drop_space_blank s B).
  reflexivity.
Qed.

(** Text that neither starts nor ends with white space is left alone. *)
Lemma strip_id (s : pystr) :
  match s with c :: _ => is_space c = false | [] => True end ->
  match rev s with c :: _ => is_space c = false | [] => True end ->
  strip s = s.
Proof.
  intros H1 H2. unfold strip, rstrip, lstrip.
  rewrite (drop_space_id s H1), (drop_space_id _ H2). apply rev_involutive.
Qed.

Lemma strip_idempotent (s : pystr) : strip (strip s) = strip s.
Proof.
  apply strip_id.
  - destruct (strip s) as [|c t] eqn:E; [exact I |]. exact (strip_first s c t E).
  - destruct (rev (strip s)) as [|c t] eqn:E; [exact I |].
    apply (strip_last s). apply (f_equal (@rev N)) in E.
    rewrite rev_involutive in E. rewrite E. simpl. apply last_snoc.
Qed.

Lemma startswith_spec (p s : pystr) :
  startswith p s = true <-> exists r, s = p ++ r.
Proof.
  revert s. induction p as [|a p IH]; intros s; simpl.
  - split; [intros _; exists s; reflexivity | reflexivity].
  - destruct s as [|b s].
    + split; [discriminate | intros (r & Hr); discriminate].
    + rewrite andb_true_iff, N.eqb_eq, IH. split.
      * intros (-> & r & ->). exists r. reflexivity.
      * intros (r & [= -> ->]). split; [reflexivity | exists r; reflexivity].
Qed.

(** [sub in s] holds exactly when [sub] occurs somewhere in [s]. *)
Lemma contains_spec (sub s : pystr) :
  contains sub s = true <-> exists l r, s = l ++ sub ++ r.
Proof.
  induction s as [|c s IH]; simpl; rewrite orb_true_iff, startswith_spec.
  - split.
    + intros [(r & Hr) | H]; [exists [], r; exact Hr | discriminate].
    + intros (l & r & H). left. destruct l; [exists r; exact H | discriminate].
  - rewrite IH. split.
    + intros [(r & Hr) | (l & r & Hr)].
      * exists [], r. exact Hr.
      * exists (c :: l), r. simpl. f_equal. exact Hr.
    + intros (l & r & H). destruct l as [|a l]; simpl in H.
      * left. exists r. exact H.
      * right. injection H as _ H. exists l, r. exact H.
Qed.

Lemma contains_nil_r (sub : pystr) : sub <> [] -> contains sub [] = false.
Proof. destruct sub; [congruence | reflexivity]. Qed.

End StrFacts.

(** * Facts about [splitlines] *)

Module LineFacts.
Import Str.

Lemma splitlines_from_nil_iff (s cur : pystr) :
  splitlines_from cur s = [] <-> cur = [] /\ s = [].
Proof.
  revert cur. induction s as [|c rest IH]; intros cur; simpl.
  - destruct cur; split; try discriminate; auto. intros [? _]. discriminate.
  - destruct (is_linebreak c).
    + split; [discriminate | intros [_ ?]; discriminate].
    + rewrite IH. split; intros [? ?]; discriminate.
Qed.

(** A terminator at the head closes the current line; reading resumes
    behind the terminator, which is one code point or ["\r\n"]. *)
Lemma splitlines_from_break (cur rest : pystr) c :
  is_linebreak c = true ->
  exists term rem,
    c :: rest = term ++ rem
    /\ (term = [c] \/ term = [CR; LF])
    /\ (length rem <= length rest)%nat
    /\ splitlines_from cur (c :: rest) = rev cur :: splitlines_from [] rem.
Proof.
  intros Hc. simpl. rewrite Hc.
  destruct (c =? CR) eqn:Ecr.
  - destruct rest as [|d rest'].
    + exists [c], []. repeat split; auto.
    + destruct (d =? LF) eqn:Elf.
      * apply N.eqb_eq in Ecr, Elf. subst c d.
        exists [CR; LF], rest'. repeat split; auto. simpl. lia.
      * exists [c], (d :: rest'). repeat split; auto.
  - exists [c], rest. repeat split; auto.
Qed.

Lemma splitlines_from_nobreak (s cur : pystr) :
  nobreak s -> cur <> [] \/ s <> [] ->
  splitlines_from cur s = [rev cur ++ s].
Proof.
  intros Hs. revert cur. induction Hs as [|c rest Hc _ IH]; intros cur Hne; simpl.
  - destruct cur; [destruct Hne; congruence |]. rewrite app_nil_r. reflexivity.
  - rewrite Hc, IH by (left; discriminate).
    simpl. rewrite <- app_assoc. reflexivity.
Qed.

(** A text without terminators is its own single line. *)
Lemma splitlines_single (s : pystr) :
  nobreak s -> s <> [] -> splitlines s = [s].
Proof.
  intros Hs Hne. unfold splitlines.
  rewrite splitlines_from_nobreak by auto. reflexivity.
Qed.

Lemma last_cons_cases {A} (x : A) (l : list A) (y : A) :
  last (x :: l) = Some y -> (l = [] /\ y = x) \/ (l <> [] /\ last l = Some y).
Proof.
  destruct l as [|z l]; simpl.
  - intros [= <-]. left. auto.
  - intros H. right. split; [discriminate | exact H].
Qed.

Lemma ends_with_break_after (front term pre : pystr) c :
  is_linebreak c = true ->
  term = [c] \/ term = [CR; LF] ->
  pre = [] \/ (exists pre' d, pre = pre' ++ [d] /\ is_linebreak d = true) ->
  exists pre' d, front ++ term ++ pre = pre' ++ [d] /\ is_linebreak d = true.
Proof.
  intros Hc Hterm [-> | (pre' & d & -> & Hd)].
  - rewrite app_nil_r. destruct Hterm as [-> | ->].
    + exists front, c. auto.
    + exists (front ++ [CR]), LF. split; [rewrite <- app_assoc|]; reflexivity.
  - exists (front ++ term ++ pre'), d. split; [| exact Hd].
    rewrite <- !app_assoc. reflexivity.
Qed.

(** The last element of [splitlines_from cur s] is the last line of the
    text made of the pending line [cur] followed by [s]. *)
Lemma last_splitlines_from (n : nat) :
  forall (s cur L : pystr),
    (length s <= n)%nat -> nobreak cur ->
    last (splitlines_from cur s) = Some L ->
    is_last_line (rev cur ++ s) L.
Proof.
  induction n as [|n IH]; intros s cur L Hlen Hcur Hlast.
  - destruct s; [| simpl in Hlen; lia]. simpl in Hlast.
    destruct cur as [|a cur]; [discriminate |]. injection Hlast as <-.
    exists [], []. rewrite !app_nil_r. repeat split.
    + exact (Forall_rev Hcur).
    + left. reflexivity.
    + left. reflexivity.
    + intros H. apply (f_equal (@length N)) in H.
      simpl in H. rewrite length_app in H. simpl in H. lia.
  - destruct s as [|c rest].
    + apply (IH [] cur L); [simpl; lia | exact Hcur | exact Hlast].
    + simpl in Hlen. destruct (is_linebreak c) eqn:Hc.
      * destruct (splitlines_from_break cur rest c Hc)
          as (term & rem & Hsplit & Hterm & Hrem & Heq).
        rewrite Heq in Hlast.
        apply last_cons_cases in Hlast as [[Hnil ->] | [Hne Hlast]].
        -- apply splitlines_from_nil_iff in Hnil as [_ ->].
           rewrite app_nil_r in Hsplit. rewrite Hsplit.
           exists [], term. repeat split.
           ++ apply Forall_rev. exact Hcur.
           ++ destruct Hterm as [-> | ->]; [right; left; eauto | right; right; auto].
           ++ left. reflexivity.
           ++ intros _. destruct Hterm as [-> | ->]; discriminate.
        -- apply (IH rem [] L) in Hlast; [| lia | constructor].
           destruct Hlast as (pre & post & Hrem_eq & HL & Hpost & Hpre & Hempty).
           simpl in Hrem_eq. rewrite Hsplit, Hrem_eq.
           exists (rev cur ++ term ++ pre), post. repeat split; auto.
           ++ rewrite <- !app_assoc. reflexivity.
           ++ right. apply (ends_with_break_after _ _ _ c); auto.
      * simpl in Hlast. rewrite Hc in Hlast.
        apply (IH rest (c :: cur) L) in Hlast; [| lia | constructor; auto].
        simpl in Hlast. rewrite <- app_assoc in Hlast. exact Hlast.
Qed.

Lemma last_splitlines (m L : pystr) :
  last (splitlines m) = Some L -> is_last_line m L.
Proof.
  intros H. apply (last_splitlines_from (length m) m [] L); auto. constructor.
Qed.

(** A non-empty text has a last line. *)
Lemma splitlines_last_exists (m : pystr) :
  m <> [] -> exists L, last (splitlines m) = Some L.
Proof.
  intros Hne. destruct (last (splitlines m)) as [L|] eqn:E; [eauto |].
  apply last_None in E. apply splitlines_from_nil_iff in E as [_ ?].
  contradiction.
Qed.

End LineFacts.

(** * The execution core *)

Section Staged.
Context (env : Env) (code : pystr) (w : World) (docker name : pystr).

(** The invocation gets as far as running the container. *)
Hypothesis docker_found : shutil_which env (py "docker") = Some docker.
Hypothesis dir_made : mkdtemp_name env = inr name.
Hypothesis file_opened : open_error env = None.
Hypothesis text_encoded : utf8_check 0 (textwrap_dedent env code) = None.

(** The container ran to completion: the result is the classification of
    its streams and status. *)
Lemma staged_completed (proc : CompletedProcess) :
  docker_outcome env (docker_cmd (tmpdir_of env name)) = Returned proc ->
  (run_code_in_docker env code w).1 =
  Returned
    (let combined :=
       Str.strip (or_empty (stdout proc) ++ [Str.LF] ++ or_empty (stderr proc)) in
     if negb (returncode proc =? 0)%Z then
       if Str.contains (py "killed") (str_lower env combined)
          || Str.contains (py "out of memory") (str_lower env combined)
       then (py "Execution failed: container was killed due to excessive memory usage.",
             returncode proc)
       else (combined, returncode proc)
     else (Str.strip (or_empty (stdout proc)), returncode proc)).
Proof.
  intros Hrun. core_run docker_found dir_made file_opened text_encoded.
  rewrite Hrun. cbv beta iota zeta.
  destruct (negb (returncode proc =? 0)%Z); [| reflexivity].
  destruct (Str.contains (py "killed") _ || Str.contains (py "out of memory") _);
    reflexivity.
Qed.

(** [subprocess.run] raised: the two handlers decide. *)
Lemma staged_raised (e : exc) :
  docker_outcome env (docker_cmd (tmpdir_of env name)) = Raised e ->
  (run_code_in_docker env code w).1 =
  match exc_cls e with
  | TimeoutExpired =>
      Returned (py "Execution timed out after " ++
                Str.of_int EXEC_TIMEOUT_SECONDS ++ py " seconds.", (-2)%Z)
  | c => if is_Exception c
         then Returned (py "Internal error: " ++ exc_str e, (-1)%Z)
         else Raised e
  end.
Proof.
  intros Hrun. core_run docker_found dir_made file_opened text_encoded.
  rewrite Hrun. cbv beta iota.
  destruct (exc_cls e); reflexivity.
Qed.

(** The text does not encode: the error of [f.write] leaves the function. *)
Lemma staged_unencodable_raises (env' : Env) (e : exc) :
  shutil_which env' (py "docker") = Some docker ->
  mkdtemp_name env' = inr name ->
  open_error env' = None ->
  utf8_check 0 (textwrap_dedent env' code) = Some e ->
  (run_code_in_docker env' code w).1 = Raised e.
Proof.
  intros H1 H2 H3 H4. core_run H1 H2 H3 H4. reflexivity.
Qed.

(** Once the script is staged, every [Exception] of the launch is turned
    into a result. *)
Lemma staged_run_returns :
  (forall e, docker_outcome env (docker_cmd (tmpdir_of env name)) = Raised e ->
             is_Exception (exc_cls e) = true) ->
  exists r, (run_code_in_docker env code w).1 = Returned r.
Proof.
  intros Hexc.
  destruct (docker_outcome env (docker_cmd (tmpdir_of env name))) as [proc|e] eqn:E.
  - rewrite (staged_completed proc E). eauto.
  - rewrite (staged_raised e E). specialize (Hexc e eq_refl).
    destruct (exc_cls e); simpl in Hexc |- *; eauto; discriminate.
Qed.

(** C1. When the container exits with status 0, the result is standard
    output with leading and trailing white space removed, with exit code 0;
    standard error [se] does not occur in the result, whatever it holds. *)
Theorem C1_success_returns_trimmed_stdout (so se : option pystr) (rc : Z) :
  docker_outcome env (docker_cmd (tmpdir_of env name)) =
    Returned (mkProc so se rc) ->
  rc = 0%Z ->
  exists out,
    (run_code_in_docker env code w).1 = Returned (out, 0%Z)
    /\ out = Str.strip (or_empty so)
    /\ (exists l r, or_empty so = l ++ out ++ r /\ blank l /\ blank r)
    /\ (forall c t, out = c :: t -> Str.is_space c = false)
    /\ (forall c, last out = Some c -> Str.is_space c = false).
Proof.
  intros Hrun ->. exists (Str.strip (or_empty so)).
  rewrite (staged_completed _ Hrun). simpl. repeat split.
  - apply StrFacts.strip_decompose.
  - apply StrFacts.strip_first.
  - apply StrFacts.strip_last.
Qed.

(** C2. When [subprocess.run] raises [TimeoutExpired], the result is exit
    code -2 with the message naming the 10-second deadline. *)
Theorem C2_timeout_result (e : exc) :
  docker_outcome env (docker_cmd (tmpdir_of env name)) = Raised e ->
  exc_cls e = TimeoutExpired ->
  (run_code_in_docker env code w).1 =
  Returned (py "Execution timed out after 10 seconds.", (-2)%Z).
Proof.
  intros Hrun Hcls. rewrite (staged_raised e Hrun), Hcls. reflexivity.
Qed.

(** C4. A non-zero status whose combined text (stdout, newline, stderr,
    trimmed), lower-cased, contains [killed] or [out of memory] yields the
    fixed memory sentence and keeps the status. *)
Theorem C4_oom_heuristic (so se : option pystr) (rc : Z) :
  docker_outcome env (docker_cmd (tmpdir_of env name)) =
    Returned (mkProc so se rc) ->
  rc <> 0%Z ->
  (let low := str_lower env
                (Str.strip (or_empty so ++ [Str.LF] ++ or_empty se)) in
   Str.contains (py "killed") low = true
   \/ Str.contains (py "out of memory") low = true) ->
  (run_code_in_docker env code w).1 =
  Returned (py "Execution failed: container was killed due to excessive memory usage.",
            rc).
Proof.
  intros Hrun Hrc Hlow. rewrite (staged_completed _ Hrun). simpl.
  apply Z.eqb_neq in Hrc. rewrite Hrc. simpl.
  apply orb_true_iff in Hlow. simpl in Hlow. rewrite Hlow. reflexivity.
Qed.

(** C5. A non-zero status whose combined text does not match the memory
    heuristic yields that text, stdout + newline + stderr with leading and
    trailing white space removed, and keeps the status. *)
Theorem C5_guest_failure (so se : option pystr) (rc : Z) :
  docker_outcome env (docker_cmd (tmpdir_of env name)) =
    Returned (mkProc so se rc) ->
  rc <> 0%Z ->
  (let low := str_lower env
                (Str.strip (or_empty so ++ [Str.LF] ++ or_empty se)) in
   Str.contains (py "killed") low = false
   /\ Str.contains (py "out of memory") low = false) ->
  exists out,
    (run_code_in_docker env code w).1 = Returned (out, rc)
    /\ out = Str.strip (or_empty so ++ [Str.LF] ++ or_empty se)
    /\ (exists l r, or_empty so ++ [Str.LF] ++ or_empty se = l ++ out ++ r
                    /\ blank l /\ blank r)
    /\ (forall c t, out = c :: t -> Str.is_space c = false)
    /\ (forall c, last out = Some c -> Str.is_space c = false).
Proof.
  intros Hrun Hrc [Hk Ho]. eexists. split; [| split; [reflexivity |]].
  - rewrite (staged_completed _ Hrun). simpl.
    apply Z.eqb_neq in Hrc. rewrite Hrc. simpl.
    simpl in Hk, Ho. rewrite Hk, Ho. reflexivity.
  - repeat split.
    + apply StrFacts.strip_decompose.
    + apply StrFacts.strip_first.
    + apply StrFacts.strip_last.
Qed.

(** C10. A non-zero status with both streams empty yields the empty text
    and keeps the status. *)
Theorem C10_silent_failure (so se : option pystr) (rc : Z) :
  docker_outcome env (docker_cmd (tmpdir_of env name)) =
    Returned (mkProc so se rc) ->
  rc <> 0%Z ->
  or_empty so = [] -> or_empty se = [] ->
  str_lower env [] = [] ->
  (run_code_in_docker env code w).1 = Returned ([], rc).
Proof.
  intros Hrun Hrc Hso Hse Hlow. rewrite (staged_completed _ Hrun). simpl.
  apply Z.eqb_neq in Hrc. rewrite Hrc, Hso, Hse. simpl.
  change (Str.strip [Str.LF]) with (@nil N). rewrite Hlow. reflexivity.
Qed.

End Staged.

(** * Staging and its release *)

Section Staging.
Context (env : Env).

Lemma path_join_prefix (d b : pystr) :
  Str.startswith [SEP] b = false ->
  Str.startswith (path_join d []) (path_join d b) = true.
Proof.
  intros Hb. apply StrFacts.startswith_spec. unfold path_join. rewrite Hb.
  change (Str.startswith [SEP] []) with false. cbv iota.
  destruct d as [|c d].
  - exists b. reflexivity.
  - destruct (Str.startswith [SEP] (rev (c :: d))).
    + exists b. rewrite app_nil_r. reflexivity.
    + exists b. rewrite <- app_assoc. reflexivity.
Qed.

Lemma inside_self (d : pystr) : inside d d = true.
Proof. unfold inside. rewrite bool_decide_eq_true_2; reflexivity. Qed.

Lemma inside_script (d : pystr) : inside d (path_join d (py "script.py")) = true.
Proof.
  unfold inside. rewrite path_join_prefix by reflexivity. apply orb_true_r.
Qed.

(** The cleanup leaves nothing at or below the directory ... *)
Lemma exit_removes (d p : pystr) (w : World) :
  inside d p = true ->
  (p ∉ dirs (TemporaryDirectory_exit d w).2)
  /\ files (TemporaryDirectory_exit d w).2 !! p = None.
Proof.
  intros Hin. simpl. split.
  - rewrite elem_of_filter. intros [Hout _]. congruence.
  - apply map_lookup_filter_None. right. intros x _ Hout. simpl in Hout.
    congruence.
Qed.

(** ... and touches nothing else. *)
Lemma exit_frame (d p : pystr) (w : World) :
  inside d p = false ->
  (p ∈ dirs (TemporaryDirectory_exit d w).2 <-> p ∈ dirs w)
  /\ files (TemporaryDirectory_exit d w).2 !! p = files w !! p.
Proof.
  intros Hout. simpl. split.
  - rewrite elem_of_filter. tauto.
  - destruct (files w !! p) as [x|] eqn:E.
    + apply map_lookup_filter_Some. auto.
    + apply map_lookup_filter_None. auto.
Qed.

(** The world in which the cleanup runs: the body has only staged and run,
    and only below the staging directory. *)
Lemma run_world_before_exit (code : pystr) (w : World) (docker name : pystr) :
  shutil_which env (py "docker") = Some docker ->
  mkdtemp_name env = inr name ->
  exists wb evs,
    (run_code_in_docker env code w).2 =
      (TemporaryDirectory_exit (tmpdir_of env name) wb).2
    /\ trace wb = evs ++ EvMkdtemp (tmpdir_of env name) :: trace w
    /\ Forall body_event evs
    /\ forall p, inside (tmpdir_of env name) p = false ->
                 (p ∈ dirs wb <-> p ∈ dirs w) /\ files wb !! p = files w !! p.
Proof.
  intros Hwhich Hname.
  set (d := tmpdir_of env name).
  assert (Hdir : forall p, inside d p = false -> p ∈ {[d]} ∪ dirs w <-> p ∈ dirs w).
  { intros p Hout. rewrite elem_of_union, elem_of_singleton. split; [| auto].
    intros [-> | H]; [| exact H]. rewrite inside_self in Hout. discriminate. }
  assert (Hfile : forall p (x : pystr) (m : gmap pystr pystr), inside d p = false ->
            <[path_join d (py "script.py") := x]> m !! p = m !! p).
  { intros p x m Hout. apply lookup_insert_ne. intros <-.
    rewrite inside_script in Hout. discriminate. }
  core_unfold. rewrite Hwhich. cbv beta iota. simpl negb. cbv beta iota.
  rewrite Hname. cbv beta iota. fold d.
  destruct (open_error env) as [e|].
  { eexists (mkWorld _ _ _), []. cbv beta iota.
    split; [reflexivity |]. split; [reflexivity |]. split; [constructor |].
    intros p Hout. simpl. split; [apply Hdir; exact Hout | reflexivity]. }
  cbv beta iota.
  destruct (utf8_check 0 (textwrap_dedent env code)) as [e|].
  { eexists (mkWorld _ _ _), [_]. cbv beta iota.
    split; [reflexivity |]. split; [reflexivity |].
    split; [repeat constructor |].
    intros p Hout. simpl. split; [apply Hdir; exact Hout | apply Hfile; exact Hout]. }
  cbv beta iota.
  assert (Hgoal : forall r : outcome (pystr * Z),
    exists wb evs,
      (let (r0, w') := (r, mkWorld ({[d]} ∪ dirs w)
          (<[path_join d (py "script.py") := textwrap_dedent env code]>
             (<[path_join d (py "script.py") := []]> (files w)))
          (EvRun (docker_cmd d)
           :: EvWrite (path_join d (py "script.py")) (textwrap_dedent env code)
           :: EvOpen (path_join d (py "script.py"))
           :: EvMkdtemp d :: trace w)) in
       let (o, w'') := TemporaryDirectory_exit d w' in
       match o with Returned _ => (r0, w'') | Raised e => (Raised e, w'') end).2
      = (TemporaryDirectory_exit d wb).2
      /\ trace wb = evs ++ EvMkdtemp d :: trace w
      /\ Forall body_event evs
      /\ forall p, inside d p = false ->
                   (p ∈ dirs wb <-> p ∈ dirs w) /\ files wb !! p = files w !! p).
  { intros r. eexists (mkWorld _ _ _), [_; _; _].
    split; [reflexivity |]. split; [reflexivity |].
    split; [repeat constructor |].
    intros p Hout. simpl. split; [apply Hdir; exact Hout |].
    rewrite !Hfile by exact Hout. reflexivity. }
  destruct (docker_outcome env (docker_cmd d)) as [proc|e]; cbv beta iota.
  - destruct (negb (returncode proc =? 0)%Z); [| apply Hgoal].
    destruct (Str.contains (py "killed") _ || Str.contains (py "out of memory") _);
      apply Hgoal.
  - destruct (exc_cls e); simpl is_Exception; cbv beta iota; apply Hgoal.
Qed.

(** C3. Without [docker] on PATH the result is the fixed pair and the host
    is exactly as before: no directory, no file, no container run. *)
Theorem C3_docker_missing (code : pystr) (w : World) :
  shutil_which env (py "docker") = None ->
  run_code_in_docker env code w =
  (Returned (py "Docker is not installed or not available in PATH.", (-1)%Z), w).
Proof.
  intros Hwhich. core_unfold. rewrite Hwhich. reflexivity.
Qed.

(** C8. Whenever the staging directory was made, it is gone when
    [run_code_in_docker] ends, with the script and all else below it, on
    every path (result or exception); the cleanup ran once, last; paths
    outside the directory are as before. *)
Theorem C8_staging_removed (code : pystr) (w : World) (docker name : pystr) :
  shutil_which env (py "docker") = Some docker ->
  mkdtemp_name env = inr name ->
  let d := tmpdir_of env name in
  let w' := (run_code_in_docker env code w).2 in
  (d ∉ dirs w')
  /\ files w' !! path_join d (py "script.py") = None
  /\ (forall p, inside d p = true -> (p ∉ dirs w') /\ files w' !! p = None)
  /\ (forall p, inside d p = false ->
                (p ∈ dirs w' <-> p ∈ dirs w) /\ files w' !! p = files w !! p)
  /\ exists evs, trace w' = EvRmtree d :: evs ++ EvMkdtemp d :: trace w
                 /\ Forall body_event evs.
Proof.
  intros Hwhich Hname d w'.
  destruct (run_world_before_exit code w docker name Hwhich Hname)
    as (wb & evs & Hw & Htrace & Hevs & Hframe).
  fold d in Hw, Htrace, Hframe. subst w'. rewrite Hw.
  split; [apply exit_removes, inside_self |].
  split; [apply exit_removes, inside_script |].
  split; [intros p Hin; apply exit_removes; exact Hin |].
  split.
  - intros p Hout. destruct (exit_frame d p wb Hout) as [Hd Hf].
    destruct (Hframe p Hout) as [Hd' Hf']. rewrite Hd, Hf. auto.
  - exists evs. simpl. rewrite Htrace. auto.
Qed.

End Staging.

(** C7. A text holding a lone surrogate cannot be written as UTF-8; the
    write happens before the [try], so the error leaves
    [run_code_in_docker] instead of becoming a result. *)
Theorem C7_staging_error_escapes :
  (run_code_in_docker (host true (Returned (mkProc (Some []) (Some []) 0)))
     [0xD800] world0).1 =
  Raised (Exc UnicodeEncodeError
            (py "'utf-8' codec can't encode character '\ud800' in position 0: surrogates not allowed")).
Proof.
  apply (staged_unencodable_raises _ _ (py "/usr/bin/docker") (py "k3x9qz_a"));
    reflexivity.
Qed.

(** * The HTTP shell *)

Lemma clean_message_returns (m : pystr) :
  exists r, clean_message m = Returned r.
Proof.
  unfold clean_message, index_last.
  destruct (Str.contains (py "Traceback") m) eqn:E; [| eauto].
  destruct (LineFacts.splitlines_last_exists m) as (L & HL).
  - intros ->. discriminate.
  - rewrite HL. eauto.
Qed.

Lemma clean_message_nobreak (L : pystr) :
  nobreak L -> clean_message L = Returned L.
Proof.
  intros HL. unfold clean_message, index_last.
  destruct (Str.contains (py "Traceback") L) eqn:E; [| reflexivity].
  rewrite LineFacts.splitlines_single; [reflexivity | exact HL |].
  intros ->. discriminate.
Qed.

(** C6. A message without the marker is returned as it is; one with the
    marker is cut down to its last line; cleaning a cleaned message
    changes nothing. *)
Theorem C6_clean_message (m : pystr) :
  (Str.contains (py "Traceback") m = false -> clean_message m = Returned m)
  /\ (Str.contains (py "Traceback") m = true ->
      exists L, clean_message m = Returned L
                /\ last (Str.splitlines m) = Some L
                /\ is_last_line m L)
  /\ (exists r, clean_message m = Returned r /\ clean_message r = Returned r).
Proof.
  assert (Hmark : Str.contains (py "Traceback") m = true ->
      exists L, clean_message m = Returned L
                /\ last (Str.splitlines m) = Some L
                /\ is_last_line m L).
  { intros E. destruct (LineFacts.splitlines_last_exists m) as (L & HL).
    - intros ->. discriminate.
    - exists L. unfold clean_message, index_last. rewrite E, HL.
      split; [reflexivity |]. split; [reflexivity |].
      apply LineFacts.last_splitlines. exact HL. }
  split; [| split; [exact Hmark |]].
  - intros E. unfold clean_message. rewrite E. reflexivity.
  - destruct (Str.contains (py "Traceback") m) eqn:E.
    + destruct (Hmark eq_refl) as (L & Hc & _ & (pre & post & _ & HL & _)).
      exists L. split; [exact Hc | apply clean_message_nobreak; exact HL].
    + exists m. unfold clean_message. rewrite E. auto.
Qed.

(** C9. A request object whose [code] is a number, a boolean or [null]
    passes the presence check and then fails in [len]: the handler raises
    [TypeError], answers nothing, and the core is never entered. *)
Theorem C9_code_type_unchecked (env : Env) (d : gmap pystr json) (v : json)
    (w : World) :
  d !! py "code" = Some v ->
  unsized v = true ->
  run_code env (JDict d) w =
  (Raised (Exc TypeError (py "object of type '" ++ type_name v ++
                          py "' has no len()")), w).
Proof.
  intros Hcode Hv. unfold run_code, lift.
  unfold mbind, M_bind, bind, mret, M_ret, ret. cbv beta.
  assert (Hsize : Nat.eqb (size d) 0 = false).
  { apply Nat.eqb_neq. intros H0. apply map_size_empty_iff in H0.
    subst d. rewrite lookup_empty in Hcode. discriminate. }
  unfold truthy. rewrite Hsize. cbv beta iota. simpl negb. cbv beta iota.
  unfold contains_code, getitem_code. rewrite Hcode. cbv beta iota.
  simpl negb. cbv beta iota.
  destruct v; try discriminate; reflexivity.
Qed.

(** * The theorems at work on concrete runs *)

(** [print("hi")] with a warning on standard error. *)
Lemma C1_witness :
  (run_code_in_docker
     (host true (Returned (mkProc (Some (py "hi" ++ [Str.LF]))
                                  (Some (py "DeprecationWarning: old call"))
                                  0)))
     (py "print('hi')") world0).1
  = Returned (py "hi", 0%Z).
Proof.
  destruct (C1_success_returns_trimmed_stdout
              (host true (Returned (mkProc (Some (py "hi" ++ [Str.LF]))
                                           (Some (py "DeprecationWarning: old call"))
                                           0)))
              (py "print('hi')") world0 (py "/usr/bin/docker") (py "k3x9qz_a")
              eq_refl eq_refl eq_refl eq_refl _ _ 0%Z eq_refl eq_refl)
    as (out & Hrun & Hout & _).
  rewrite Hrun, Hout. reflexivity.
Defined.

(** [time.sleep(60)] against the 10-second deadline. *)
Lemma C2_witness :
  (run_code_in_docker
     (host true (Raised (Exc TimeoutExpired (py "timed out after 10 seconds"))))
     (py "import time; time.sleep(60)") world0).1
  = Returned (py "Execution timed out after 10 seconds.", (-2)%Z).
Proof.
  apply (C2_timeout_result
           (host true (Raised (Exc TimeoutExpired (py "timed out after 10 seconds"))))
           (py "import time; time.sleep(60)") world0
           (py "/usr/bin/docker") (py "k3x9qz_a")
           eq_refl eq_refl eq_refl eq_refl
           (Exc TimeoutExpired (py "timed out after 10 seconds")));
    reflexivity.
Defined.

(** A host without [docker]. *)
Lemma C3_witness :
  run_code_in_docker (host false (Raised (Exc OSError []))) (py "print('hi')")
    world0
  = (Returned (py "Docker is not installed or not available in PATH.", (-1)%Z),
     world0).
Proof.
  apply C3_docker_missing. reflexivity.
Defined.

(** The accepted false positive: a program that prints the word and then
    fails for an unrelated reason is reported as a memory kill. *)
Lemma C4_witness :
  (run_code_in_docker
     (host true (Returned (mkProc (Some (py "I Killed the bug" ++ [Str.LF]))
                                  (Some (py "ValueError: bad input"))
                                  1)))
     (py "print('I Killed the bug'); raise ValueError('bad input')") world0).1
  = Returned (py "Execution failed: container was killed due to excessive memory usage.",
              1%Z).
Proof.
  apply (C4_oom_heuristic
           (host true (Returned (mkProc (Some (py "I Killed the bug" ++ [Str.LF]))
                                        (Some (py "ValueError: bad input"))
                                        1)))
           (py "print('I Killed the bug'); raise ValueError('bad input')") world0
           (py "/usr/bin/docker") (py "k3x9qz_a")
           eq_refl eq_refl eq_refl eq_refl
           (Some (py "I Killed the bug" ++ [Str.LF]))
           (Some (py "ValueError: bad input")) 1%Z eq_refl).
  - discriminate.
  - left. reflexivity.
Defined.

(** A division by zero in the guest: the whole trace comes back from the
    core, with status 1. *)
Lemma C5_witness :
  (run_code_in_docker
     (host true (Returned (mkProc (Some []) (Some (zero_division_trace ++ [Str.LF])) 1)))
     (py "print(1/0)") world0).1
  = Returned (zero_division_trace, 1%Z).
Proof.
  destruct (C5_guest_failure
              (host true (Returned (mkProc (Some [])
                                           (Some (zero_division_trace ++ [Str.LF])) 1)))
              (py "print(1/0)") world0 (py "/usr/bin/docker") (py "k3x9qz_a")
              eq_refl eq_refl eq_refl eq_refl _ _ 1%Z eq_refl)
    as (out & Hrun & Hout & _).
  - discriminate.
  - split; reflexivity.
  - rewrite Hrun, Hout. reflexivity.
Defined.

(** The shell cuts that trace down to its last line, and cutting again
    changes nothing. *)
Lemma C6_witness :
  clean_message zero_division_trace
  = Returned (py "ZeroDivisionError: division by zero")
  /\ clean_message (py "ZeroDivisionError: division by zero")
     = Returned (py "ZeroDivisionError: division by zero").
Proof.
  destruct (C6_clean_message zero_division_trace) as (_ & Hcut & _).
  destruct (Hcut eq_refl) as (L & Hclean & Hlast & _).
  injection Hlast as <-.
  destruct (C6_clean_message (py "ZeroDivisionError: division by zero"))
    as (Hsame & _ & _).
  split; [exact Hclean | exact (Hsame eq_refl)].
Defined.

(** After a timeout nothing of the staging directory is left. *)
Lemma C8_witness :
  let w' := (run_code_in_docker
               (host true (Raised (Exc TimeoutExpired [])))
               (py "import time; time.sleep(60)") world0).2 in
  (py "/tmp/tmpk3x9qz_a" ∉ dirs w')
  /\ files w' !! py "/tmp/tmpk3x9qz_a/script.py" = None.
Proof.
  destruct (C8_staging_removed (host true (Raised (Exc TimeoutExpired [])))
              (py "import time; time.sleep(60)") world0
              (py "/usr/bin/docker") (py "k3x9qz_a") eq_refl eq_refl)
    as (Hdir & Hfile & _).
  split; [exact Hdir | exact Hfile].
Defined.

(** The request [{"code": 5}]. *)
Lemma C9_witness :
  run_code (host true (Raised (Exc OSError [])))
    (JDict {[ py "code" := JInt 5 ]}) world0
  = (Raised (Exc TypeError (py "object of type 'int' has no len()")), world0).
Proof.
  apply (C9_code_type_unchecked _ {[ py "code" := JInt 5 ]} (JInt 5) world0).
  - apply lookup_singleton_eq.
  - reflexivity.
Defined.

(** A guest killed by a signal without a word on either stream. *)
Lemma C10_witness :
  (run_code_in_docker
     (host true (Returned (mkProc (Some []) None 137)))
     (py "import os; os.abort()") world0).1
  = Returned ([], 137%Z).
Proof.
  apply (C10_silent_failure
           (host true (Returned (mkProc (Some []) None 137)))
           (py "import os; os.abort()") world0
           (py "/usr/bin/docker") (py "k3x9qz_a")
           eq_refl eq_refl eq_refl eq_refl (Some []) None 137%Z eq_refl);
    [discriminate | reflexivity | reflexivity | reflexivity].
Defined.

(** * Further properties of the HTTP shell *)

(** The presence check, as the code evaluates it. *)
Lemma run_code_absent (env : Env) (data : json) (w : World) :
  negb (truthy data)
  || match contains_code data with Returned false => true | _ => false end
  = true ->
  run_code env data w = (Returned missing_response, w).
Proof.
  intros H. shell_unfold. destruct (negb (truthy data)); [reflexivity |].
  simpl in H. cbv beta iota.
  destruct (contains_code data) as [[|]|e]; try discriminate. reflexivity.
Qed.

(** A body that is falsy ([None], [{}], [[]], [''], [0], [False]) or an
    object without the key is answered 400 and touches nothing. *)
Theorem run_code_missing_field (env : Env) (data : json) (w : World) :
  truthy data = false
  \/ (exists d, data = JDict d /\ d !! py "code" = None) ->
  run_code env data w = (Returned missing_response, w).
Proof.
  intros [Hfalsy | (d & -> & Hkey)]; apply run_code_absent.
  - rewrite Hfalsy. reflexivity.
  - unfold contains_code. rewrite Hkey. apply orb_true_r.
Qed.

Lemma run_code_missing_field_witness :
  run_code (host true (Raised (Exc OSError []))) (JDict {[ py "source" := JStr (py "print(1)") ]})
    world0
  = (Returned missing_response, world0)
  /\ run_code (host true (Raised (Exc OSError []))) (JList []) world0
     = (Returned missing_response, world0).
Proof.
  split; apply run_code_missing_field.
  - right. eexists. split; [reflexivity |].
    apply lookup_singleton_ne. discriminate.
  - left. reflexivity.
Defined.

Lemma dict_with_key_truthy (d : gmap pystr json) (k : pystr) (v : json) :
  d !! k = Some v -> truthy (JDict d) = true.
Proof.
  intros Hk. simpl. apply negb_true_iff, Nat.eqb_neq. intros H0.
  apply map_size_empty_iff in H0. subst d. rewrite lookup_empty in Hk.
  discriminate.
Qed.

(** The handler on an object that has the key, up to the length check. *)
Lemma run_code_with_key (env : Env) (d : gmap pystr json) (v : json) (w : World) :
  d !! py "code" = Some v ->
  run_code env (JDict d) w =
  match py_len v with
  | Raised e => (Raised e, w)
  | Returned n =>
      if (n >? MAX_CODE_SIZE)%Z then (Returned too_long_response, w)
      else match call_run_code_in_docker env v w with
           | (Raised e, w') => (Raised e, w')
           | (Returned (output, exit_code), w') =>
               match clean_message output with
               | Raised e => (Raised e, w')
               | Returned cleaned =>
                   (Returned (ok_response cleaned exit_code), w')
               end
           end
  end.
Proof.
  intros Hkey. shell_unfold.
  rewrite (dict_with_key_truthy d _ v Hkey). cbv beta iota delta [negb].
  unfold contains_code, getitem_code. rewrite Hkey.
  cbv beta iota delta [negb].
  destruct (py_len v) as [n|e]; [| reflexivity].
  destruct (n >? MAX_CODE_SIZE)%Z; [reflexivity |].
  destruct (call_run_code_in_docker env v w) as [[[output exit_code]|e] w'];
    [| reflexivity].
  destruct (clean_message output); reflexivity.
Qed.

(** Whatever has a length above 5000 (a text, but also a list or an
    object) is answered 400, without the core being entered. *)
Theorem run_code_too_long (env : Env) (d : gmap pystr json) (v : json) (n : Z)
    (w : World) :
  d !! py "code" = Some v ->
  py_len v = Returned n ->
  (n > MAX_CODE_SIZE)%Z ->
  run_code env (JDict d) w = (Returned too_long_response, w).
Proof.
  intros Hkey Hlen Hn. rewrite (run_code_with_key env d v w Hkey), Hlen.
  apply Z.gtb_gt in Hn. rewrite Hn. reflexivity.
Qed.

Lemma run_code_too_long_witness :
  run_code (host true (Raised (Exc OSError [])))
    (JDict {[ py "code" := JList (repeat (JInt 0) (Z.to_nat 5001)) ]}) world0
  = (Returned too_long_response, world0).
Proof.
  apply (run_code_too_long _ _ (JList (repeat (JInt 0) (Z.to_nat 5001))) 5001).
  - apply lookup_singleton_eq.
  - unfold py_len. rewrite repeat_length. reflexivity.
  - reflexivity.
Defined.

(** A text of at most 5000 code points (5000 included) is run by the core
    once; the answer is 200 whatever exit code the core reports, carries
    that exit code and the cleaned output, and an exception of the core
    leaves the handler. *)
Theorem run_code_runs_core (env : Env) (d : gmap pystr json) (s : pystr)
    (w : World) :
  d !! py "code" = Some (JStr s) ->
  (Str.len s <= MAX_CODE_SIZE)%Z ->
  match run_code_in_docker env s w with
  | (Returned (output, exit_code), w') =>
      exists cleaned,
        clean_message output = Returned cleaned
        /\ run_code env (JDict d) w =
           (Returned (ok_response cleaned exit_code), w')
  | (Raised e, w') => run_code env (JDict d) w = (Raised e, w')
  end.
Proof.
  intros Hkey Hlen. rewrite (run_code_with_key env d _ w Hkey).
  simpl py_len. cbv iota.
  replace (Str.len s >? MAX_CODE_SIZE)%Z with false
    by (symmetry; rewrite Z.gtb_ltb; apply Z.ltb_ge; exact Hlen).
  simpl call_run_code_in_docker.
  destruct (run_code_in_docker env s w) as [[[output exit_code]|e] w'];
    [| reflexivity].
  destruct (clean_message_returns output) as (cleaned & Hclean).
  exists cleaned. rewrite Hclean. auto.
Qed.

Lemma run_code_runs_core_witness :
  run_code (host false (Raised (Exc OSError [])))
    (JDict {[ py "code" := JStr (py "print('hi')") ]}) world0
  = (Returned (ok_response (py "Docker is not installed or not available in PATH.")
                           (-1)), world0).
Proof.
  pose proof (run_code_runs_core (host false (Raised (Exc OSError [])))
                {[ py "code" := JStr (py "print('hi')") ]} (py "print('hi')")
                world0 (lookup_singleton_eq _ _)) as H.
  change (run_code_in_docker (host false (Raised (Exc OSError [])))
            (py "print('hi')") world0)
    with (Returned (py "Docker is not installed or not available in PATH.",
                    (-1)%Z), world0) in H.
  destruct H as (cleaned & Hclean & Hrun); [discriminate |].
  injection Hclean as <-. exact Hrun.
Defined.

Lemma run_code_non_object (env : Env) (data : json) (w : World) :
  non_object data -> truthy data = true ->
  run_code env data w =
  match contains_code data with
  | Returned false => (Returned missing_response, w)
  | Returned true =>
      match getitem_code data with
      | Raised e => (Raised e, w)
      | Returned _ => (Returned missing_response, w)
      end
  | Raised e => (Raised e, w)
  end.
Proof.
  intros Hno Htrue. shell_unfold. rewrite Htrue.
  cbv beta iota delta [negb].
  destruct data; try contradiction; try reflexivity.
  - unfold contains_code. destruct (Str.contains (py "code") s); reflexivity.
  - unfold contains_code. destruct (existsb _ l); reflexivity.
Qed.

(** A truthy body that is not an object is never run: it is answered 400
    when it does not hold ["code"] (as an element of an array, as a part of
    a string) and makes the handler raise [TypeError] otherwise; a number
    or [true] always does. *)
Theorem run_code_non_object_body (env : Env) (data : json) (w : World) :
  non_object data -> truthy data = true ->
  match contains_code data with
  | Returned false => run_code env data w = (Returned missing_response, w)
  | _ => exists e, run_code env data w = (Raised e, w) /\ exc_cls e = TypeError
  end.
Proof.
  intros Hno Htrue. pose proof (run_code_non_object env data w Hno Htrue) as Hrun.
  destruct data; try contradiction;
    cbv beta iota delta [contains_code getitem_code] in *;
    try (eexists; split; [exact Hrun | reflexivity]).
  - destruct (Str.contains (py "code") s); [| exact Hrun].
    eexists; split; [exact Hrun | reflexivity].
  - destruct (existsb _ l); [| exact Hrun].
    eexists; split; [exact Hrun | reflexivity].
Qed.

Lemma run_code_non_object_body_witness :
  (exists e, run_code (host true (Raised (Exc OSError [])))
               (JList [JStr (py "code")]) world0 = (Raised e, world0)
             /\ exc_cls e = TypeError)
  /\ run_code (host true (Raised (Exc OSError []))) (JStr (py "print(1)")) world0
     = (Returned missing_response, world0).
Proof.
  split.
  - exact (run_code_non_object_body (host true (Raised (Exc OSError [])))
             (JList [JStr (py "code")]) world0 I eq_refl).
  - exact (run_code_non_object_body (host true (Raised (Exc OSError [])))
             (JStr (py "print(1)")) world0 I eq_refl).
Defined.

(** Input validation as a guard: the host is touched only for an object
    whose [code] is a text of at most 5000 code points. *)
Theorem run_code_enters_core_only_for_text (env : Env) (data : json) (w : World) :
  (run_code env data w).2 <> w ->
  exists d s, data = JDict d /\ d !! py "code" = Some (JStr s)
              /\ (Str.len s <= MAX_CODE_SIZE)%Z.
Proof.
  intros Hw.
  destruct (truthy data) eqn:Htrue.
  2: { exfalso. apply Hw. rewrite run_code_absent; [reflexivity |].
       rewrite Htrue. reflexivity. }
  destruct data as [| b | z | f | s | l | d].
  1-6: exfalso; apply Hw.
  - discriminate.
  - rewrite (run_code_non_object env (JBool b) w I Htrue). reflexivity.
  - rewrite (run_code_non_object env (JInt z) w I Htrue). reflexivity.
  - rewrite (run_code_non_object env (JFloat f) w I Htrue). reflexivity.
  - rewrite (run_code_non_object env (JStr s) w I Htrue).
    cbv beta iota delta [contains_code getitem_code].
    destruct (Str.contains (py "code") s); reflexivity.
  - rewrite (run_code_non_object env (JList l) w I Htrue).
    cbv beta iota delta [contains_code getitem_code].
    destruct (existsb _ l); reflexivity.
  - destruct (d !! py "code") as [v|] eqn:Hkey.
    + rewrite (run_code_with_key env d v w Hkey) in Hw.
      destruct v as [| b | z | f | s | l | d']; simpl py_len in Hw;
        cbv iota in Hw; try (exfalso; apply Hw; reflexivity).
      * destruct (Str.len s >? MAX_CODE_SIZE)%Z eqn:Hlen;
          [exfalso; apply Hw; reflexivity |].
        exists d, s. split; [reflexivity |]. split; [exact Hkey |].
        rewrite Z.gtb_ltb in Hlen. apply Z.ltb_ge. exact Hlen.
      * destruct (Z.of_nat (length l) >? MAX_CODE_SIZE)%Z;
          exfalso; apply Hw; reflexivity.
      * destruct (Z.of_nat (size d') >? MAX_CODE_SIZE)%Z;
          exfalso; apply Hw; reflexivity.
    + exfalso. apply Hw. rewrite run_code_absent; [reflexivity |].
      unfold contains_code. rewrite Hkey. apply orb_true_r.
Qed.

Lemma run_code_enters_core_only_for_text_witness :
  exists d s,
    JDict {[ py "code" := JStr (py "print('hi')") ]} = JDict d
    /\ d !! py "code" = Some (JStr s)
    /\ (Str.len s <= MAX_CODE_SIZE)%Z.
Proof.
  apply (run_code_enters_core_only_for_text
           (host true (Raised (Exc TimeoutExpired []))) _ world0).
  intros H. apply (f_equal trace) in H. vm_compute in H. discriminate.
Defined.

(** * Further properties of the execution core *)

Section CorePaths.
Context (env : Env) (code : pystr) (w : World).

Lemma core_without_docker :
  shutil_which env (py "docker") = None ->
  (run_code_in_docker env code w).1 =
  Returned (py "Docker is not installed or not available in PATH.", (-1)%Z).
Proof. intros H. core_unfold. rewrite H. reflexivity. Qed.

(** The temporary directory cannot be made: the error of [mkdtemp] leaves
    the function and the host is as before. *)
Theorem core_mkdtemp_error_escapes (docker : pystr) (e : exc) :
  shutil_which env (py "docker") = Some docker ->
  mkdtemp_name env = inl e ->
  run_code_in_docker env code w = (Raised e, w).
Proof.
  intros Hwhich Hname. core_unfold. rewrite Hwhich.
  cbv beta iota delta [negb]. rewrite Hname. reflexivity.
Qed.

Lemma core_mkdtemp_error_path (docker : pystr) (e : exc) :
  shutil_which env (py "docker") = Some docker ->
  mkdtemp_name env = inl e ->
  (run_code_in_docker env code w).1 = Raised e.
Proof.
  intros Hwhich Hname. core_unfold. rewrite Hwhich.
  cbv beta iota delta [negb]. rewrite Hname. reflexivity.
Qed.

Lemma core_open_error (docker name : pystr) (e : exc) :
  shutil_which env (py "docker") = Some docker ->
  mkdtemp_name env = inr name ->
  open_error env = Some e ->
  (run_code_in_docker env code w).1 = Raised e.
Proof.
  intros Hwhich Hname Hopen. core_unfold. rewrite Hwhich.
  cbv beta iota delta [negb]. rewrite Hname, Hopen. reflexivity.
Qed.

Lemma utf8_check_surrogate (s : pystr) (pos : nat) :
  Exists (fun c => is_surrogate c = true) s ->
  exists e, utf8_check pos s = Some e /\ exc_cls e = UnicodeEncodeError.
Proof.
  intros Hs. revert pos. induction Hs as [c s Hc | c s _ IH]; intros pos; simpl.
  - rewrite Hc. eexists. split; reflexivity.
  - destruct (is_surrogate c); [eexists; split; reflexivity | apply IH].
Qed.

Lemma utf8_check_clean (s : pystr) (pos : nat) :
  Forall (fun c => is_surrogate c = false) s -> utf8_check pos s = None.
Proof.
  intros Hs. revert pos. induction Hs as [| c s Hc _ IH]; intros pos; simpl.
  - reflexivity.
  - rewrite Hc. apply IH.
Qed.

(** Any surrogate code point anywhere in the dedented text makes the write
    fail, and the [UnicodeEncodeError] leaves the function. *)
Theorem core_surrogate_escapes (docker name : pystr) :
  shutil_which env (py "docker") = Some docker ->
  mkdtemp_name env = inr name ->
  open_error env = None ->
  Exists (fun c => is_surrogate c = true) (textwrap_dedent env code) ->
  exists e, (run_code_in_docker env code w).1 = Raised e
            /\ exc_cls e = UnicodeEncodeError.
Proof.
  intros Hwhich Hname Hopen Hsur.
  destruct (utf8_check_surrogate _ 0%nat Hsur) as (e & Hcheck & Hcls).
  exists e. split; [| exact Hcls].
  exact (staged_unencodable_raises code w docker name env e
           Hwhich Hname Hopen Hcheck).
Qed.

(** An [Exception] of the launch other than the timeout becomes the
    internal-error result, with the text of the exception. *)
Theorem core_internal_error (docker name : pystr) (e : exc) :
  shutil_which env (py "docker") = Some docker ->
  mkdtemp_name env = inr name ->
  open_error env = None ->
  utf8_check 0 (textwrap_dedent env code) = None ->
  docker_outcome env (docker_cmd (tmpdir_of env name)) = Raised e ->
  exc_cls e <> TimeoutExpired ->
  is_Exception (exc_cls e) = true ->
  (run_code_in_docker env code w).1 =
  Returned (py "Internal error: " ++ exc_str e, (-1)%Z).
Proof.
  intros Hwhich Hname Hopen Henc Hrun Hnot Hexc.
  rewrite (staged_raised env code w docker name Hwhich Hname Hopen Henc e Hrun).
  destruct (exc_cls e); try reflexivity; try discriminate. congruence.
Qed.

(** What [except Exception] does not catch ([KeyboardInterrupt],
    [SystemExit]) leaves the function. *)
Theorem core_base_exception_escapes (docker name : pystr) (e : exc) :
  shutil_which env (py "docker") = Some docker ->
  mkdtemp_name env = inr name ->
  open_error env = None ->
  utf8_check 0 (textwrap_dedent env code) = None ->
  docker_outcome env (docker_cmd (tmpdir_of env name)) = Raised e ->
  is_Exception (exc_cls e) = false ->
  (run_code_in_docker env code w).1 = Raised e.
Proof.
  intros Hwhich Hname Hopen Henc Hrun Hexc.
  rewrite (staged_raised env code w docker name Hwhich Hname Hopen Henc e Hrun).
  destruct (exc_cls e); try discriminate; reflexivity.
Qed.


(** Exit code 0 is reported only when the container itself exited with
    status 0, and then with its trimmed standard output. *)
Theorem core_exit_code_zero (out : pystr) :
  (run_code_in_docker env code w).1 = Returned (out, 0%Z) ->
  exists name so se,
    mkdtemp_name env = inr name
    /\ docker_outcome env (docker_cmd (tmpdir_of env name)) =
       Returned (mkProc so se 0)
    /\ out = Str.strip (or_empty so).
Proof.
  intros H.
  destruct (shutil_which env (py "docker")) as [docker|] eqn:Hwhich;
    [| rewrite (core_without_docker Hwhich) in H; discriminate].
  destruct (mkdtemp_name env) as [e0|name] eqn:Hname.
  { rewrite (core_mkdtemp_error_path docker e0 Hwhich Hname) in H.
    discriminate. }
  destruct (open_error env) as [e0|] eqn:Hopen.
  { rewrite (core_open_error docker name e0 Hwhich Hname Hopen) in H.
    discriminate. }
  destruct (utf8_check 0 (textwrap_dedent env code)) as [e0|] eqn:Henc.
  { rewrite (staged_unencodable_raises code w docker name env e0
               Hwhich Hname Hopen Henc) in H. discriminate. }
  destruct (docker_outcome env (docker_cmd (tmpdir_of env name)))
    as [proc|e0] eqn:Hrun.
  - rewrite (staged_completed env code w docker name Hwhich Hname Hopen Henc
               proc Hrun) in H.
    destruct proc as [so se rc]. simpl in H.
    destruct (rc =? 0)%Z eqn:Hrc; simpl in H.
    + apply Z.eqb_eq in Hrc. subst rc. injection H as <-.
      exists name, so, se. auto.
    + apply Z.eqb_neq in Hrc.
      destruct (_ || _) in H; injection H as _ H0; congruence.
  - rewrite (staged_raised env code w docker name Hwhich Hname Hopen Henc
               e0 Hrun) in H.
    destruct (exc_cls e0); simpl in H; discriminate.
Qed.

End CorePaths.

Section CoreEffects.
Context (env : Env) (code : pystr) (w : World) (docker name : pystr).
Hypothesis docker_found : shutil_which env (py "docker") = Some docker.
Hypothesis dir_made : mkdtemp_name env = inr name.


Hypothesis file_opened : open_error env = None.
Hypothesis text_encoded : utf8_check 0 (textwrap_dedent env code) = None.

(** Whenever the container ran to completion, the exit code reported is
    the container's own and the output neither begins nor ends with white
    space. *)
Theorem core_completed_output_trimmed (proc : CompletedProcess) :
  docker_outcome env (docker_cmd (tmpdir_of env name)) = Returned proc ->
  exists out,
    (run_code_in_docker env code w).1 = Returned (out, returncode proc)
    /\ (forall c t, out = c :: t -> Str.is_space c = false)
    /\ (forall c, last out = Some c -> Str.is_space c = false).
Proof.
  intros Hrun.
  rewrite (staged_completed env code w docker name docker_found dir_made
             file_opened text_encoded proc Hrun).
  cbv zeta. destruct (negb (returncode proc =? 0)%Z).
  - destruct (Str.contains (py "killed") _ || Str.contains (py "out of memory") _).
    + eexists. split; [reflexivity |]. split.
      * intros c t H. vm_compute in H. injection H as <- _. reflexivity.
      * intros c H. vm_compute in H. injection H as <-. reflexivity.
    + eexists. split; [reflexivity |]. split.
      * apply StrFacts.strip_first.
      * apply StrFacts.strip_last.
  - eexists. split; [reflexivity |]. split.
    + apply StrFacts.strip_first.
    + apply StrFacts.strip_last.
Qed.

End CoreEffects.

(** * Trimming, then cutting to the last line *)

Lemma linebreak_is_space (c : N) :
  Str.is_linebreak c = true -> Str.is_space c = true.
Proof.
  unfold Str.is_linebreak, Str.is_space.
  rewrite !orb_true_iff, !andb_true_iff, !N.leb_le, !N.eqb_eq. lia.
Qed.

(** The last line of a trimmed text is never empty: it is the part of the
    text behind its last line terminator. *)
Lemma last_line_of_trimmed (x L : pystr) :
  last (Str.splitlines (Str.strip x)) = Some L ->
  exists pre,
    Str.strip x = pre ++ L /\ L <> [] /\ nobreak L
    /\ (pre = [] \/ exists pre' c, pre = pre' ++ [c] /\ Str.is_linebreak c = true).
Proof.
  intros Hlast.
  destruct (LineFacts.last_splitlines _ _ Hlast)
    as (pre & post & Heq & HL & Hpost & Hpre & Hempty).
  assert (Hnil : post = []).
  { destruct Hpost as [-> | [(c & -> & Hc) | ->]]; [reflexivity | |]; exfalso.
    - assert (Hsp : Str.is_space c = false).
      { apply (StrFacts.strip_last x). rewrite Heq, !app_assoc. apply last_snoc. }
      rewrite (linebreak_is_space c Hc) in Hsp. discriminate.
    - assert (Hsp : Str.is_space Str.LF = false).
      { apply (StrFacts.strip_last x). rewrite Heq.
        change [Str.CR; Str.LF] with ([Str.CR] ++ [Str.LF]).
        rewrite !app_assoc. apply last_snoc. }
      discriminate. }
  subst post. rewrite app_nil_r in Heq. exists pre.
  split; [exact Heq |]. split; [| split; [exact HL | exact Hpre]].
  intros HLnil. apply (Hempty HLnil). reflexivity.
Qed.

(** On a trimmed text that holds the marker, [clean_message] returns a
    non-empty single line: the text behind its last line terminator. *)
Theorem clean_message_of_trimmed (x : pystr) :
  Str.contains (py "Traceback") (Str.strip x) = true ->
  exists L pre,
    clean_message (Str.strip x) = Returned L
    /\ Str.strip x = pre ++ L /\ L <> [] /\ nobreak L
    /\ (pre = [] \/ exists pre' c, pre = pre' ++ [c] /\ Str.is_linebreak c = true).
Proof.
  intros Hmark.
  destruct (LineFacts.splitlines_last_exists (Str.strip x)) as (L & Hlast).
  { intros Hnil. rewrite Hnil in Hmark. discriminate. }
  destruct (last_line_of_trimmed x L Hlast) as (pre & Hrest).
  exists L, pre. split; [| exact Hrest].
  unfold clean_message, index_last. rewrite Hmark, Hlast. reflexivity.
Qed.

Lemma clean_message_of_trimmed_witness :
  clean_message (Str.strip ([Str.LF] ++ zero_division_trace ++ [Str.LF; Str.LF]))
  = Returned (py "ZeroDivisionError: division by zero").
Proof.
  destruct (clean_message_of_trimmed
              ([Str.LF] ++ zero_division_trace ++ [Str.LF; Str.LF]) eq_refl)
    as (L & pre & Hclean & _).
  rewrite Hclean. vm_compute in Hclean. injection Hclean as <-. reflexivity.
Defined.

(** [clean_message] invents nothing: its result is a contiguous part of
    the message, so never longer than the message. *)
Theorem clean_message_is_part (m : pystr) :
  exists r pre post,
    clean_message m = Returned r /\ m = pre ++ r ++ post
    /\ (length r <= length m)%nat.
Proof.
  assert (Hcut : exists r pre post,
            clean_message m = Returned r /\ m = pre ++ r ++ post).
  { unfold clean_message, index_last.
    destruct (Str.contains (py "Traceback") m) eqn:Hmark.
    - destruct (LineFacts.splitlines_last_exists m) as (L & Hlast).
      { intros ->. discriminate. }
      destruct (LineFacts.last_splitlines m L Hlast) as (pre & post & Heq & _).
      exists L, pre, post. rewrite Hlast. auto.
    - exists m, [], []. rewrite app_nil_r. auto. }
  destruct Hcut as (r & pre & post & Hclean & Heq).
  exists r, pre, post. split; [exact Hclean |]. split; [exact Heq |].
  apply (f_equal (@length N)) in Heq. rewrite !length_app in Heq. lia.
Qed.

(** * From the request to the answer *)

Lemma clean_message_unmarked (m : pystr) :
  Str.contains (py "Traceback") m = false -> clean_message m = Returned m.
Proof. intros H. unfold clean_message. rewrite H. reflexivity. Qed.

Section EndToEnd.
Context (env : Env) (d : gmap pystr json) (s : pystr) (w : World).

(** The request carries a text of admissible length. *)
Hypothesis code_given : d !! py "code" = Some (JStr s).
Hypothesis code_short : (Str.len s <= MAX_CODE_SIZE)%Z.

Lemma run_code_text :
  run_code env (JDict d) w =
  match run_code_in_docker env s w with
  | (Raised e, w') => (Raised e, w')
  | (Returned (output, exit_code), w') =>
      match clean_message output with
      | Raised e => (Raised e, w')
      | Returned cleaned => (Returned (ok_response cleaned exit_code), w')
      end
  end.
Proof.
  rewrite (run_code_with_key env d _ w code_given). simpl py_len. cbv iota.
  replace (Str.len s >? MAX_CODE_SIZE)%Z with false
    by (symmetry; rewrite Z.gtb_ltb; apply Z.ltb_ge; exact code_short).
  reflexivity.
Qed.

Lemma run_code_text_result (output : pystr) (exit_code : Z) :
  (run_code_in_docker env s w).1 = Returned (output, exit_code) ->
  Str.contains (py "Traceback") output = false ->
  (run_code env (JDict d) w).1 = Returned (ok_response output exit_code).
Proof.
  intros Hcore Hmark. rewrite run_code_text.
  destruct (run_code_in_docker env s w) as [r w']. simpl in Hcore. subst r.
  rewrite (clean_message_unmarked output Hmark). reflexivity.
Qed.

(** Without [docker] the client still gets 200, with the fixed sentence
    and exit code -1; nothing is staged or run. *)
Theorem run_code_without_docker :
  shutil_which env (py "docker") = None ->
  run_code env (JDict d) w =
  (Returned (ok_response (py "Docker is not installed or not available in PATH.")
                         (-1)), w).
Proof.
  intros Hwhich. rewrite run_code_text.
  replace (run_code_in_docker env s w)
    with (Returned (py "Docker is not installed or not available in PATH.",
                    (-1)%Z), w)
    by (core_unfold; rewrite Hwhich; reflexivity).
  reflexivity.
Qed.

Context (docker name : pystr).
Hypothesis docker_found : shutil_which env (py "docker") = Some docker.
Hypothesis dir_made : mkdtemp_name env = inr name.
Hypothesis file_opened : open_error env = None.
Hypothesis text_encoded : utf8_check 0 (textwrap_dedent env s) = None.

(** A run beyond the deadline is answered 200 with the timeout sentence,
    unchanged by the cleaning pass, and exit code -2. *)
Theorem run_code_timeout (e : exc) :
  docker_outcome env (docker_cmd (tmpdir_of env name)) = Raised e ->
  exc_cls e = TimeoutExpired ->
  (run_code env (JDict d) w).1 =
  Returned (ok_response (py "Execution timed out after 10 seconds.") (-2)).
Proof.
  intros Hrun Hcls. apply run_code_text_result; [| reflexivity].
  rewrite (staged_raised env s w docker name docker_found dir_made
             file_opened text_encoded e Hrun), Hcls.
  reflexivity.
Qed.

(** A run classified as a memory kill is answered 200 with the fixed
    sentence, unchanged by the cleaning pass, and the container's status. *)
Theorem run_code_memory_kill (so se : option pystr) (rc : Z) :
  docker_outcome env (docker_cmd (tmpdir_of env name)) =
    Returned (mkProc so se rc) ->
  rc <> 0%Z ->
  (let low := str_lower env
                (Str.strip (or_empty so ++ [Str.LF] ++ or_empty se)) in
   Str.contains (py "killed") low || Str.contains (py "out of memory") low
   = true) ->
  (run_code env (JDict d) w).1 =
  Returned (ok_response
              (py "Execution failed: container was killed due to excessive memory usage.")
              rc).
Proof.
  intros Hrun Hrc Hlow. apply run_code_text_result; [| reflexivity].
  rewrite (staged_completed env s w docker name docker_found dir_made
             file_opened text_encoded _ Hrun).
  cbv zeta in Hlow |- *. simpl returncode. simpl stdout. simpl stderr.
  apply Z.eqb_neq in Hrc. rewrite Hrc, Hlow. reflexivity.
Qed.

(** A completed run that is not classified as a memory kill and whose
    result text holds the marker is answered with the last line of that
    text only: the element [splitlines()[-1]] of the text, which is never
    empty, holds no line terminator, and runs from the start of the text
    or from just behind a line terminator up to the end of the text.
    This holds for failed runs (text: trimmed stdout, newline, stderr) and
    for successful runs (text: trimmed stdout) alike. *)
Theorem run_code_answers_last_line (so se : option pystr) (rc : Z) :
  docker_outcome env (docker_cmd (tmpdir_of env name)) =
    Returned (mkProc so se rc) ->
  let combined := Str.strip (or_empty so ++ [Str.LF] ++ or_empty se) in
  let text := if (rc =? 0)%Z then Str.strip (or_empty so) else combined in
  (rc <> 0%Z ->
   Str.contains (py "killed") (str_lower env combined)
   || Str.contains (py "out of memory") (str_lower env combined) = false) ->
  Str.contains (py "Traceback") text = true ->
  exists L pre,
    (run_code env (JDict d) w).1 = Returned (ok_response L rc)
    /\ last (Str.splitlines text) = Some L
    /\ text = pre ++ L /\ L <> [] /\ nobreak L
    /\ (pre = []
        \/ exists pre' c, pre = pre' ++ [c] /\ Str.is_linebreak c = true).
Proof.
  intros Hrun combined text Hoom Hmark.
  assert (Hcore : (run_code_in_docker env s w).1 = Returned (text, rc)).
  { rewrite (staged_completed env s w docker name docker_found dir_made
               file_opened text_encoded _ Hrun).
    cbv zeta. simpl returncode. simpl stdout. simpl stderr.
    subst text combined. destruct (rc =? 0)%Z eqn:Hrc; [reflexivity |].
    apply Z.eqb_neq in Hrc. simpl negb. cbv iota.
    rewrite (Hoom Hrc). reflexivity. }
  assert (Hclean : exists L pre, clean_message text = Returned L
                     /\ last (Str.splitlines text) = Some L
                     /\ text = pre ++ L /\ L <> [] /\ nobreak L
                     /\ (pre = []
                         \/ exists pre' c, pre = pre' ++ [c]
                                           /\ Str.is_linebreak c = true)).
  { assert (Htrim : exists x, text = Str.strip x).
    { subst text. destruct (rc =? 0)%Z; eauto. }
    destruct Htrim as (x & Hx). rewrite Hx in Hmark |- *.
    destruct (LineFacts.splitlines_last_exists (Str.strip x)) as (L & Hlast).
    { intros Hnil. rewrite Hnil in Hmark. discriminate. }
    destruct (last_line_of_trimmed x L Hlast) as (pre & Heq & Hne & HL & Hpre).
    exists L, pre. unfold clean_message, index_last. rewrite Hmark, Hlast.
    repeat split; auto. }
  destruct Hclean as (L & pre & HcleanL & Hrest).
  exists L, pre. split; [| exact Hrest].
  rewrite run_code_text.
  destruct (run_code_in_docker env s w) as [r w']. simpl in Hcore. subst r.
  rewrite HcleanL. reflexivity.
Qed.

End EndToEnd.

(** * The further properties on concrete runs *)

Lemma core_mkdtemp_error_escapes_witness :
  run_code_in_docker host_disk_full (py "print(1)") world0
  = (Raised (Exc OSError (py "[Errno 28] No space left on device")), world0).
Proof.
  apply (core_mkdtemp_error_escapes host_disk_full (py "print(1)") world0
           (py "/usr/bin/docker"));
    reflexivity.
Defined.

Lemma core_surrogate_escapes_witness :
  exists e,
    (run_code_in_docker (host true (Returned (mkProc (Some []) (Some []) 0)))
       (py "s = '" ++ [0xDC00] ++ py "'") world0).1 = Raised e
    /\ exc_cls e = UnicodeEncodeError.
Proof.
  apply (core_surrogate_escapes
           (host true (Returned (mkProc (Some []) (Some []) 0)))
           (py "s = '" ++ [0xDC00] ++ py "'") world0
           (py "/usr/bin/docker") (py "k3x9qz_a"));
    [reflexivity | reflexivity | reflexivity |].
  do 5 apply Exists_cons_tl. apply Exists_cons_hd. reflexivity.
Defined.

Lemma core_internal_error_witness :
  (run_code_in_docker
     (host true (Raised (Exc OSError (py "[Errno 13] Permission denied: 'docker'"))))
     (py "print(1)") world0).1
  = Returned (py "Internal error: [Errno 13] Permission denied: 'docker'", (-1)%Z).
Proof.
  apply (core_internal_error
           (host true (Raised (Exc OSError (py "[Errno 13] Permission denied: 'docker'"))))
           (py "print(1)") world0 (py "/usr/bin/docker") (py "k3x9qz_a")
           (Exc OSError (py "[Errno 13] Permission denied: 'docker'")));
    try reflexivity.
  discriminate.
Defined.

Lemma core_base_exception_escapes_witness :
  (run_code_in_docker (host true (Raised (Exc KeyboardInterrupt [])))
     (py "print(1)") world0).1
  = Raised (Exc KeyboardInterrupt []).
Proof.
  apply (core_base_exception_escapes
           (host true (Raised (Exc KeyboardInterrupt [])))
           (py "print(1)") world0 (py "/usr/bin/docker") (py "k3x9qz_a"));
    reflexivity.
Defined.


Lemma core_exit_code_zero_witness :
  let env := host true (Returned (mkProc (Some (py " hi ")) None 0)) in
  exists name so se,
    mkdtemp_name env = inr name
    /\ docker_outcome env (docker_cmd (tmpdir_of env name)) =
       Returned (mkProc so se 0)
    /\ py "hi" = Str.strip (or_empty so).
Proof.
  apply (core_exit_code_zero
           (host true (Returned (mkProc (Some (py " hi ")) None 0)))
           (py "print(' hi ')") world0).
  reflexivity.
Defined.


Lemma core_completed_output_trimmed_witness :
  exists out,
    (run_code_in_docker
       (host true (Returned (mkProc (Some (py " hi ")) None 0)))
       (py "print(' hi ')") world0).1 = Returned (out, 0%Z)
    /\ (forall c t, out = c :: t -> Str.is_space c = false)
    /\ (forall c, last out = Some c -> Str.is_space c = false).
Proof.
  exact (core_completed_output_trimmed
           (host true (Returned (mkProc (Some (py " hi ")) None 0)))
           (py "print(' hi ')") world0 (py "/usr/bin/docker") (py "k3x9qz_a")
           eq_refl eq_refl eq_refl eq_refl _ eq_refl).
Defined.

Lemma run_code_without_docker_witness :
  run_code (host false (Raised (Exc OSError [])))
    (JDict {[ py "code" := JStr (py "print('hi')") ]}) world0
  = (Returned (ok_response (py "Docker is not installed or not available in PATH.")
                           (-1)), world0).
Proof.
  apply (run_code_without_docker (host false (Raised (Exc OSError [])))
           {[ py "code" := JStr (py "print('hi')") ]} (py "print('hi')") world0).
  - apply lookup_singleton_eq.
  - discriminate.
  - reflexivity.
Defined.

Lemma run_code_timeout_witness :
  (run_code (host true (Raised (Exc TimeoutExpired [])))
     (JDict {[ py "code" := JStr (py "import time; time.sleep(60)") ]})
     world0).1
  = Returned (ok_response (py "Execution timed out after 10 seconds.") (-2)).
Proof.
  apply (run_code_timeout (host true (Raised (Exc TimeoutExpired [])))
           {[ py "code" := JStr (py "import time; time.sleep(60)") ]}
           (py "import time; time.sleep(60)") world0
           (lookup_singleton_eq _ _) ltac:(discriminate)
           (py "/usr/bin/docker") (py "k3x9qz_a")
           eq_refl eq_refl eq_refl eq_refl (Exc TimeoutExpired []));
    reflexivity.
Defined.

Lemma run_code_memory_kill_witness :
  (run_code
     (host true (Returned (mkProc (Some []) (Some (py "Killed" ++ [Str.LF])) 137)))
     (JDict {[ py "code" := JStr (py "x = ' ' * 10**10") ]}) world0).1
  = Returned (ok_response
                (py "Execution failed: container was killed due to excessive memory usage.")
                137).
Proof.
  apply (run_code_memory_kill
           (host true (Returned (mkProc (Some []) (Some (py "Killed" ++ [Str.LF])) 137)))
           {[ py "code" := JStr (py "x = ' ' * 10**10") ]}
           (py "x = ' ' * 10**10") world0
           (lookup_singleton_eq _ _) ltac:(discriminate)
           (py "/usr/bin/docker") (py "k3x9qz_a")
           eq_refl eq_refl eq_refl eq_refl
           (Some []) (Some (py "Killed" ++ [Str.LF])) 137%Z eq_refl);
    [discriminate | reflexivity].
Defined.

(** The division by zero of the specification: the client gets the
    summary line alone, with status 1. *)
Lemma run_code_answers_last_line_witness :
  (run_code
     (host true (Returned (mkProc (Some [])
                                  (Some (zero_division_trace ++ [Str.LF])) 1)))
     (JDict {[ py "code" := JStr (py "print(1/0)") ]}) world0).1
  = Returned (ok_response (py "ZeroDivisionError: division by zero") 1).
Proof.
  destruct (run_code_answers_last_line
              (host true (Returned (mkProc (Some [])
                                           (Some (zero_division_trace ++ [Str.LF])) 1)))
              {[ py "code" := JStr (py "print(1/0)") ]} (py "print(1/0)") world0
              (lookup_singleton_eq _ _) ltac:(discriminate)
              (py "/usr/bin/docker") (py "k3x9qz_a")
              eq_refl eq_refl eq_refl eq_refl
              (Some []) (Some (zero_division_trace ++ [Str.LF])) 1%Z eq_refl
              ltac:(intros; reflexivity) eq_refl)
    as (L & pre & Hanswer & Hlast & _).
  vm_compute in Hlast. injection Hlast as <-. exact Hanswer.
Defined.

(** * Two more paths *)

(** An array or an object under [code] with at most 5000 entries passes
    the presence check and the length check; the call of the core then
    raises [TypeError] before anything is staged. *)
Theorem run_code_sized_non_text (env : Env) (d : gmap pystr json) (v : json)
    (n : Z) (w : World) :
  d !! py "code" = Some v ->
  (forall s, v <> JStr s) ->
  py_len v = Returned n ->
  (n <= MAX_CODE_SIZE)%Z ->
  exists e, run_code env (JDict d) w = (Raised e, w) /\ exc_cls e = TypeError.
Proof.
  intros Hkey Hnot Hlen Hn. rewrite (run_code_with_key env d v w Hkey), Hlen.
  replace (n >? MAX_CODE_SIZE)%Z with false
    by (symmetry; rewrite Z.gtb_ltb; apply Z.ltb_ge; exact Hn).
  destruct v as [| b | z | f | s | l | d']; try discriminate.
  - exfalso. exact (Hnot s eq_refl).
  - eexists. split; reflexivity.
  - eexists. split; reflexivity.
Qed.

Lemma run_code_sized_non_text_witness :
  exists e,
    run_code (host true (Raised (Exc OSError [])))
      (JDict {[ py "code" := JList [JStr (py "print(1)")] ]}) world0
    = (Raised e, world0)
    /\ exc_cls e = TypeError.
Proof.
  apply (run_code_sized_non_text (host true (Raised (Exc OSError [])))
           {[ py "code" := JList [JStr (py "print(1)")] ]}
           (JList [JStr (py "print(1)")]) 1 world0).
  - apply lookup_singleton_eq.
  - discriminate.
  - reflexivity.
  - discriminate.
Defined.

Lemma ascii_lower_app (a b : pystr) :
  ascii_lower (a ++ b) = ascii_lower a ++ ascii_lower b.
Proof. unfold ascii_lower. apply map_app. Qed.

(** Where [str.lower] acts on the combined text as ASCII lower-casing
    does, the marker words are found in any capitalisation ([Killed],
    [KILLED], [Out Of Memory]): a failed run whose text holds one is
    reported as a memory kill, status kept. *)
Theorem core_kill_any_case (env : Env) (code : pystr) (w : World)
    (docker name : pystr) (so se : option pystr) (rc : Z) (l word r : pystr) :
  shutil_which env (py "docker") = Some docker ->
  mkdtemp_name env = inr name ->
  open_error env = None ->
  utf8_check 0 (textwrap_dedent env code) = None ->
  docker_outcome env (docker_cmd (tmpdir_of env name)) =
    Returned (mkProc so se rc) ->
  rc <> 0%Z ->
  let combined := Str.strip (or_empty so ++ [Str.LF] ++ or_empty se) in
  str_lower env combined = ascii_lower combined ->
  combined = l ++ word ++ r ->
  ascii_lower word = py "killed" \/ ascii_lower word = py "out of memory" ->
  (run_code_in_docker env code w).1 =
  Returned (py "Execution failed: container was killed due to excessive memory usage.",
            rc).
Proof.
  intros Hwhich Hname Hopen Henc Hrun Hrc combined Hlower Heq Hword.
  rewrite (staged_completed env code w docker name Hwhich Hname Hopen Henc
             _ Hrun).
  cbv zeta. simpl returncode. simpl stdout. simpl stderr.
  apply Z.eqb_neq in Hrc. rewrite Hrc. simpl negb. cbv iota.
  fold combined. rewrite Hlower, Heq, !ascii_lower_app.
  assert (Hfound : Str.contains (py "killed")
                     (ascii_lower l ++ ascii_lower word ++ ascii_lower r)
                   || Str.contains (py "out of memory")
                        (ascii_lower l ++ ascii_lower word ++ ascii_lower r)
                   = true).
  { apply orb_true_iff. destruct Hword as [Hw | Hw]; [left | right];
      apply StrFacts.contains_spec; rewrite Hw; eauto. }
  rewrite Hfound. reflexivity.
Qed.

Lemma core_kill_any_case_witness :
  (run_code_in_docker
     (host true (Returned (mkProc (Some (py "worker 3: KILLED by supervisor"))
                                  (Some []) 2)))
     (py "print('worker 3: KILLED by supervisor'); exit(2)") world0).1
  = Returned (py "Execution failed: container was killed due to excessive memory usage.",
              2%Z).
Proof.
  apply (core_kill_any_case
           (host true (Returned (mkProc (Some (py "worker 3: KILLED by supervisor"))
                                        (Some []) 2)))
           (py "print('worker 3: KILLED by supervisor'); exit(2)") world0
           (py "/usr/bin/docker") (py "k3x9qz_a")
           (Some (py "worker 3: KILLED by supervisor")) (Some []) 2%Z
           (py "worker 3: ") (py "KILLED") (py " by supervisor")
           eq_refl eq_refl eq_refl eq_refl eq_refl);
    [discriminate | reflexivity | reflexivity | left; reflexivity].
Defined.

(** * The length check on values that are not text *)

(** C9, as stated, fails for values that have a length: an array of 5001
    entries under [code] is present and is not a string, yet the handler
    raises nothing and answers 400. *)
Lemma C9_counterexample :
  let v := JList (repeat (JInt 0) (Z.to_nat 5001)) in
  let d : gmap pystr json := {[ py "code" := v ]} in
  let answer := run_code (host true (Raised (Exc OSError []))) (JDict d) world0 in
  d !! py "code" = Some v
  /\ (forall s, v <> JStr s)
  /\ answer = (Returned too_long_response, world0)
  /\ status too_long_response = 400%Z
  /\ ~ (exists e, answer.1 = Raised e).
Proof.
  intros v d answer.
  assert (Hkey : d !! py "code" = Some v) by apply lookup_singleton_eq.
  assert (Hanswer : answer = (Returned too_long_response, world0)).
  { subst answer. rewrite (run_code_with_key _ d v world0 Hkey).
    unfold v, py_len. rewrite repeat_length. reflexivity. }
  split; [exact Hkey |]. split; [discriminate |]. split; [exact Hanswer |].
  split; [reflexivity |].
  rewrite Hanswer. intros (e & He). discriminate.
Qed.
